(** * dejax: the uniform replay buffer ([dejax/uniform.py])

    A shallow embedding of the uniform experience-replay buffer and of the
    circular storage it is built on, followed by the properties of its six
    operations.

    Conventions of the embedding.
    - A pytree batch (every leaf with a leading dimension of size [n]) is a
      [list Item] of length [n]; [Item] is an arbitrary inhabited type, the
      prototype being an inhabitant.
    - The cursors [head] and [tail] are integers ([Z]); Python's [%] is the
      floored modulo, which is [Z.modulo].
    - [jax.vmap f] is [map f].
    - [checkify.check] is a step of an error monad: a failed check ends the
      computation with the message of the check.
    - [jax.random.randint] belongs to JAX: it is a parameter of the
      development, together with its contract (shape and range of the draw).
    - [uniform.py:48] reads the number of items of a batch as
      [batch[0].shape[0]], which depends on the Python container of the
      batch: the pytree structure of the items is a parameter ([PyTree]),
      and the read is a computation that can raise.
    - The cursors are [jnp.int32] values in the source ([uniform.py:52]).
      A cursor is an integer ([Z]) here, and the arithmetic of
      [uniform.py:48] on it is written out: a Python [int] operand of an
      [int32] array must fit [int32] (JAX raises [OverflowError] otherwise)
      and the sum wraps around modulo [2^32]. *)

From Stdlib Require Import ZArith Lia.
From stdpp Require Import base numbers list strings.

Local Open Scope Z_scope.

(** ** Checked errors ([jax.experimental.checkify]) *)

Inductive checkify_error : Type :=
  | CheckFailed (msg : string).

Inductive result (A : Type) : Type :=
  | Ok (a : A)
  | Err (e : checkify_error).

Arguments Ok {A} a.
Arguments Err {A} e.

#[global] Instance result_ret : MRet result := fun A a => Ok a.

#[global] Instance result_bind : MBind result := fun A B k r =>
  match r with
  | Ok a => k a
  | Err e => Err e
  end.

(** [checkify.check(pred, msg)] *)
Definition check (pred : bool) (msg : string) : result unit :=
  if pred then Ok tt else Err (CheckFailed msg).

(** The error the specification calls [EmptyBufferError]: the failure of the
    check at [uniform.py:17]. *)
Definition EmptyBufferError : checkify_error :=
  CheckFailed "Cannot sample from an empty buffer".

(** [jax.vmap f]: [f] applied independently along the leading dimension. *)
Definition vmap {A B : Type} (f : A → B) (xs : list A) : list B := map f xs.

(** ** Python exceptions *)

Inductive exception : Type :=
  | IndexError
  | KeyError
  | AttributeError
  | OverflowError.

Inductive except (A : Type) : Type :=
  | Returns (a : A)
  | Raises (e : exception).

Arguments Returns {A} a.
Arguments Raises {A} e.

#[global] Instance except_ret : MRet except := fun A a => Returns a.

#[global] Instance except_bind : MBind except := fun A B k r =>
  match r with
  | Returns a => k a
  | Raises e => Raises e
  end.

#[global] Instance except_fmap : FMap except := fun A B f r =>
  match r with
  | Returns a => Returns (f a)
  | Raises e => Raises e
  end.

(** ** [int32] arithmetic

    [wrap32 z]: the [int32] value of the integer [z], modulo [2^32]. *)
Definition wrap32 (z : Z) : Z := (z + 2 ^ 31) mod 2 ^ 32 - 2 ^ 31.

(** A Python [int] used as the operand of an [int32] array: it is
    converted to [int32] and must fit. *)
Definition int32_of_int (z : Z) : except Z :=
  if (- 2 ^ 31 <=? z) && (z <? 2 ^ 31) then Returns z else Raises OverflowError.

(** ** Pytrees, as far as [batch[0].shape[0]] can tell

    The structure of one item: a bare array of a given shape, a tuple or
    list of sub-trees, or a dict (or mappable dataclass) keyed by field
    names.  A batch of [N] items has the structure of an item, every array
    leaf of shape [s] becoming an array of shape [N :: s]. *)
#[local] Unset Elimination Schemes.

Inductive treedef : Type :=
  | ArrayDef (shape : list nat)
  | SequenceDef (children : list treedef)
  | DictDef (fields : list (string * treedef)).

#[local] Set Elimination Schemes.

(** [batch[0].shape[0]] for a batch of [N] items of structure [item].
    - The batch is one array of shape [N :: shape]: [batch[0]] is its first
      row, the first item, which does not exist when [N = 0]; the shape of
      that item is [shape], whose entry 0 does not exist for a scalar item.
    - The batch is a tuple or list: [batch[0]] is its first element, which
      does not exist in an empty tuple; when this is an array leaf its
      shape is [N :: _]; a nested tuple, list or dict has no attribute
      [shape].
    - The batch is a dict keyed by field names: there is no key [0]. *)
Definition getitem_0_shape_0 (item : treedef) (N : nat) : except Z :=
  match item with
  | ArrayDef shape =>
      match N with
      | O => Raises IndexError
      | S _ =>
          match shape with
          | [] => Raises IndexError
          | d :: _ => Returns (Z.of_nat d)
          end
      end
  | SequenceDef [] => Raises IndexError
  | SequenceDef (ArrayDef _ :: _) => Returns (Z.of_nat N)
  | SequenceDef (_ :: _) => Raises AttributeError
  | DictDef _ => Raises KeyError
  end.

(** The pytree structure shared by the items of a buffer. *)
Class PyTree (Item : Type) : Type := treedef_of : treedef.

(** ** [dejax/utils.py] *)

Module utils.
Section utils.
Context {Item : Type} `{!Inhabited Item}.

(** Modelled from the spec: [get_pytree_batch_item] is not under [src/];
    it reads the item at one physical index of a batch. *)
Definition get_pytree_batch_item (tree_batch : list Item) (index : Z) : Item :=
  tree_batch !!! Z.to_nat index.

(** Modelled from the spec: [set_pytree_batch_item] is not under [src/];
    it is the write of [push], "writes [item] at physical index [head]". *)
Definition set_pytree_batch_item
    (tree_batch : list Item) (index : Z) (new_item : Item) : list Item :=
  <[Z.to_nat index := new_item]> tree_batch.

(** Modelled from the spec: [set_pytree_batch_items] is not under [src/];
    by section 4.2 it "writes the N items into slots head, head+1, ...,
    head+N-1 (mod max_size), overwriting whatever was there".  The items
    are written one after the other, so that when two of them fall on the
    same slot the later one stays.  The comment at [uniform.py:52] names
    [jax.lax.dynamic_update_slice] as the primitive used inside; what it
    does with a slice that passes the end of the storage is not decided
    by the code under [src/]: the wrap-around is the specification's. *)
Fixpoint set_pytree_batch_items
    (tree_batch : list Item) (index : Z) (new_items : list Item) : list Item :=
  match new_items with
  | [] => tree_batch
  | item :: rest =>
      set_pytree_batch_items
        (set_pytree_batch_item tree_batch
           (index mod Z.of_nat (length tree_batch)) item)
        (index + 1) rest
  end.
End utils.
End utils.

(** ** [dejax/circular_buffer.py] *)

Module circular_buffer.
Section circular_buffer.
Context {Item : Type} `{!Inhabited Item}.

(** Modelled from the spec: the class [CircularBuffer] is not under
    [src/]; section 3 gives its four fields. *)
Record CircularBuffer : Type := mkCircularBuffer {
  data : list Item;
  head : Z;
  tail : Z;
  full : bool
}.

(** [buffer.replace(data=...)] *)
Definition replace_data (buffer : CircularBuffer) (new_data : list Item) :=
  {| data := new_data; head := head buffer; tail := tail buffer;
     full := full buffer |}.

(** Modelled from the spec: [init] is not under [src/]; storage of
    [max_size] items of the prototype's shape, [head = 0], [tail = 0],
    [full = false].  The initial contents of the slots are not specified:
    they are taken to be the prototype. *)
Definition init (item_prototype : Item) (max_size : nat) : CircularBuffer :=
  {| data := replicate max_size item_prototype; head := 0; tail := 0;
     full := false |}.

(** Modelled from the spec: [max_size] is not under [src/]; it is the
    leading dimension of [data]. *)
Definition max_size (buffer : CircularBuffer) : Z :=
  Z.of_nat (length (data buffer)).

(** Modelled from the spec: [size] is not under [src/]; "if [full] is
    false, logical size = (head - tail) mod max_size; if [full] is true,
    logical size = max_size". *)
Definition size (buffer : CircularBuffer) : Z :=
  if full buffer then max_size buffer
  else (head buffer - tail buffer) mod max_size buffer.

(** Modelled from the spec: [push] is not under [src/]; section 4.1. *)
Definition push (buffer : CircularBuffer) (item : Item) : CircularBuffer :=
  let insert_pos := head buffer in
  let new_data := utils.set_pytree_batch_item (data buffer) insert_pos item in
  let new_head := (insert_pos + 1) mod max_size buffer in
  let new_tail :=
    if full buffer then (tail buffer + 1) mod max_size buffer
    else tail buffer in
  let new_full := new_head =? new_tail in
  {| data := new_data; head := new_head; tail := new_tail; full := new_full |}.

(** Modelled from the spec: [get_at_index] is not under [src/]; "the
    physical index is the offset from [tail], wrapping modulo
    [max_size]". *)
Definition get_at_index (buffer : CircularBuffer) (index : Z) : Item :=
  utils.get_pytree_batch_item (data buffer)
    ((tail buffer + index) mod max_size buffer).

(** The storage invariant of section 3. *)
Definition wf (buffer : CircularBuffer) : Prop :=
  0 ≤ head buffer < max_size buffer ∧ 0 ≤ tail buffer < max_size buffer.

(** The logical contents, oldest item first. *)
Definition contents (buffer : CircularBuffer) : list Item :=
  get_at_index buffer <$> seqZ 0 (size buffer).
End circular_buffer.

Arguments CircularBuffer : clear implicits.
End circular_buffer.

(** ** [dejax/uniform.py] *)

Section uniform.
Context {Item : Type} `{!Inhabited Item} {item_tree : PyTree Item}.
Context {PRNGKey : Type}.

(** [jax.random.randint(rng, minval=, maxval=, shape=(n,))]. *)
Variable randint : PRNGKey → Z → Z → nat → list Z.

Record UniformReplayBufferState : Type := mkState {
  storage : circular_buffer.CircularBuffer Item
}.

(** [state.replace(storage=...)] *)
Definition replace_storage (state : UniformReplayBufferState)
    (new_storage : circular_buffer.CircularBuffer Item) :
    UniformReplayBufferState :=
  {| storage := new_storage |}.

Definition uniform_sample (buffer : circular_buffer.CircularBuffer Item)
    (rng : PRNGKey) (batch_size : nat) : result (list Item) :=
  _ ← check (0 <? circular_buffer.size buffer)
        "Cannot sample from an empty buffer";
  let sample_pos := randint rng 0 (circular_buffer.size buffer) batch_size in
  let get_at_index_batch :=
    fun b => vmap (circular_buffer.get_at_index b) in
  mret (get_at_index_batch buffer sample_pos).

Definition init_fn (max_size : nat) (item_prototype : Item) :
    UniformReplayBufferState :=
  {| storage := circular_buffer.init item_prototype max_size |}.

Definition size_fn (state : UniformReplayBufferState) : Z :=
  circular_buffer.size (storage state).

Definition add_fn (state : UniformReplayBufferState) (item : Item) :
    UniformReplayBufferState :=
  replace_storage state (circular_buffer.push (storage state) item).

Definition sample_fn (state : UniformReplayBufferState) (rng : PRNGKey)
    (batch_size : nat) : result (list Item) :=
  uniform_sample (storage state) rng batch_size.

Definition update_fn (state : UniformReplayBufferState)
    (item_update_fn : Item → Item) : UniformReplayBufferState :=
  let batch_update_fn := vmap item_update_fn in
  let updated_data := batch_update_fn (circular_buffer.data (storage state)) in
  replace_storage state
    (circular_buffer.replace_data (storage state) updated_data).

(** [batch[0].shape[0]] at line 48, for a batch given by its items. *)
Definition batch_0_shape_0 (batch : list Item) : except Z :=
  getitem_0_shape_0 (treedef_of (Item := Item)) (length batch).

Definition add_batch_fn (state : UniformReplayBufferState)
    (batch : list Item) : except UniformReplayBufferState :=
  let buffer := storage state in
  let insert_pos := circular_buffer.head buffer in
  let new_data :=
    utils.set_pytree_batch_items (circular_buffer.data buffer) insert_pos batch in
  n ← batch_0_shape_0 batch;
  n ← int32_of_int n;
  max_size ← int32_of_int (circular_buffer.max_size buffer);
  let new_head := wrap32 (insert_pos + n) mod max_size in
  let new_tail :=
    if circular_buffer.full buffer then 0 else circular_buffer.tail buffer in
  let new_full := new_head =? new_tail in
  mret (replace_storage state
          {| circular_buffer.data := new_data; circular_buffer.head := new_head;
             circular_buffer.tail := new_tail; circular_buffer.full := new_full |}).

(** The state of lines 44-57 with [head] advanced by [n] modulo
    [max_size]: what [add_batch_fn] returns, for the [n] by which the sum of
    line 48 exceeds [head], see [add_batch_fn_unfold]. *)
Definition batch_inserted (state : UniformReplayBufferState)
    (batch : list Item) (n : Z) : UniformReplayBufferState :=
  let buffer := storage state in
  let new_head :=
    (circular_buffer.head buffer + n) mod circular_buffer.max_size buffer in
  let new_tail :=
    if circular_buffer.full buffer then 0 else circular_buffer.tail buffer in
  {| storage :=
       {| circular_buffer.data :=
            utils.set_pytree_batch_items (circular_buffer.data buffer)
              (circular_buffer.head buffer) batch;
          circular_buffer.head := new_head;
          circular_buffer.tail := new_tail;
          circular_buffer.full := new_head =? new_tail |} |}.

(** [k] sequential [add_fn] calls, one per item of [items], in order. *)
Definition add_all (state : UniformReplayBufferState) (items : list Item) :
    UniformReplayBufferState :=
  fold_left add_fn items state.
End uniform.

(** ** [dejax/base.py]: the capability bundle *)

Module base.
(** Modelled from the spec: the class [ReplayBuffer] is not under [src/];
    by section 6 it is a bundle of exactly six functions. *)
Record ReplayBuffer (State Item PRNGKey : Type) : Type := mkReplayBuffer {
  init_fn : Item → State;
  size_fn : State → Z;
  add_fn : State → Item → State;
  add_batch_fn : State → list Item → except State;
  sample_fn : State → PRNGKey → nat → result (list Item);
  update_fn : State → (Item → Item) → State
}.
End base.

Definition uniform_replay {Item : Type} `{!Inhabited Item}
    {item_tree : PyTree Item} {PRNGKey : Type}
    (randint : PRNGKey → Z → Z → nat → list Z) (max_size : nat) :
    base.ReplayBuffer (@UniformReplayBufferState Item) Item PRNGKey :=
  {| base.init_fn := init_fn max_size;
     base.size_fn := size_fn;
     base.add_fn := add_fn;
     base.add_batch_fn := add_batch_fn;
     base.sample_fn := sample_fn randint;
     base.update_fn := update_fn |}.

(** ** The contract of [jax.random.randint]

    A draw of shape [(n,)] has [n] entries, each in [[minval, maxval)] when
    that range is not empty. *)
Definition randint_contract {PRNGKey : Type}
    (randint : PRNGKey → Z → Z → nat → list Z) : Prop :=
  ∀ rng minval maxval n,
    length (randint rng minval maxval n) = n ∧
    (minval < maxval →
     Forall (fun i => minval ≤ i < maxval) (randint rng minval maxval n)).

(** A generator that meets the contract: a linear congruential sequence
    seeded by the key and reduced into the range. *)
Fixpoint lcg_randint (rng minval maxval : Z) (n : nat) : list Z :=
  match n with
  | O => []
  | S n' =>
      let rng' := (1103515245 * rng + 12345) mod 2147483648 in
      (minval + rng' mod (maxval - minval)) :: lcg_randint rng' minval maxval n'
  end.

(** ** Uniform draws

    [offset_vector S n v]: [v] is a vector of [n] offsets in [[0, S)]. *)
Definition offset_vector (S : Z) (n : nat) (v : list Z) : Prop :=
  length v = n ∧ Forall (fun i => 0 ≤ i < S) v.

(** The number of keys of [keys] for which [outcome] gives [x]. *)
Definition count_keys {K A : Type} `{EqDecision A}
    (keys : list K) (outcome : K → A) (x : A) : nat :=
  length (filter (fun k => outcome k = x) keys).

(** [draw] is uniform over the vectors of [n] offsets in [[0, S)], the key
    ranging over [keys]: every draw is such a vector and every such vector
    is drawn for the same number of keys, one key in [S ^ n].  This is the
    distribution of [n] independent uniform draws with replacement. *)
Definition uniform_draw {K : Type} (keys : list K) (draw : K → list Z)
    (S : Z) (n : nat) : Prop :=
  (∀ k, k ∈ keys → offset_vector S n (draw k)) ∧
  ∀ v, offset_vector S n v →
    Z.of_nat (count_keys keys draw v) * S ^ Z.of_nat n = Z.of_nat (length keys).

#[global] Instance checkify_error_eq_dec : EqDecision checkify_error.
Proof. solve_decision. Defined.

#[global] Instance result_eq_dec {A : Type} `{EqDecision A} :
  EqDecision (result A).
Proof. solve_decision. Defined.

(** A generator that meets the contract and is uniform over the keys
    [0, ..., S ^ n - 1]: entry number [j] of the draw is digit number
    [n - 1 - j] of the key written in base [S = maxval - minval]. *)
Fixpoint digit_randint (rng minval maxval : Z) (n : nat) : list Z :=
  match n with
  | O => []
  | S n' =>
      (minval + (rng / (maxval - minval) ^ Z.of_nat n') mod (maxval - minval))
        :: digit_randint rng minval maxval n'
  end.

(** ** The state reached by pushes

    [pushed m items b]: [b] is the storage of capacity [m] into which the
    items of [items] have been pushed, in order, starting from an empty
    storage.  Item number [j] (counting from 0) sits in slot [j mod m] as
    long as it is among the last [m]. *)
Definition pushed {Item : Type} (m : nat) (items : list Item)
    (b : circular_buffer.CircularBuffer Item) : Prop :=
  let k := Z.of_nat (length items) in
  length (circular_buffer.data b) = m ∧
  circular_buffer.head b = k mod Z.of_nat m ∧
  circular_buffer.tail b = (if k <? Z.of_nat m then 0 else k mod Z.of_nat m) ∧
  circular_buffer.full b = (Z.of_nat m <=? k) ∧
  ∀ j : nat, k - Z.of_nat m ≤ Z.of_nat j < k →
    circular_buffer.data b !! Z.to_nat (Z.of_nat j mod Z.of_nat m) = items !! j.

(** ** Concrete buffers, with strings as items

    The strings stand for items; two structures are used for them: a tuple
    whose first element is an array, and one bare array of shape [(3,)]. *)

Definition tuple_items : PyTree string := SequenceDef [ArrayDef []; ArrayDef [2%nat]].

Definition bare_items : PyTree string := ArrayDef [3%nat].

Definition empty3 : @UniformReplayBufferState string := init_fn 3 "proto".

Definition abcde4 : @UniformReplayBufferState string :=
  add_all (init_fn 4 "proto") ["A"; "B"; "C"; "D"; "E"].

Definition ab4 : @UniformReplayBufferState string :=
  add_all (init_fn 4 "proto") ["A"; "B"].

Definition abc4 : @UniformReplayBufferState string :=
  add_all (init_fn 4 "proto") ["A"; "B"; "C"].

(** ** Mapping over a checked result, and the states a caller can reach *)

#[global] Instance result_fmap : FMap result := fun A B f r =>
  match r with
  | Ok a => Ok (f a)
  | Err e => Err e
  end.

(** The states obtained from [init_fn] by the four transitions of the bundle
    returned by [uniform_replay max_size]. *)
Inductive reachable {Item : Type} {item_tree : PyTree Item} (max_size : nat) :
    @UniformReplayBufferState Item → Prop :=
  | reachable_init_fn item_prototype :
      reachable max_size (init_fn max_size item_prototype)
  | reachable_add_fn state item :
      reachable max_size state → reachable max_size (add_fn state item)
  | reachable_add_batch_fn state batch state' :
      reachable max_size state →
      add_batch_fn state batch = Returns state' →
      reachable max_size state'
  | reachable_update_fn state item_update_fn :
      reachable max_size state →
      reachable max_size (update_fn state item_update_fn).

(** Sixteen keys: with [digit_randint], one for every vector of two
    offsets in [[0, 4)]. *)
Definition keys16 : list Z := seqZ 0 16.

Definition abcd4 : @UniformReplayBufferState string :=
  add_all (init_fn 4 "proto") ["A"; "B"; "C"; "D"].

Definition bcde4 : @UniformReplayBufferState string :=
  add_all (init_fn 4 "proto") ["B"; "C"; "D"; "E"].

(** An item transformation on strings. *)
Definition mark (item : string) : string := String.append item "!".

(** * Properties *)

(** ** The generator [lcg_randint] meets the contract *)

Lemma lcg_randint_contract : randint_contract lcg_randint.
Proof.
  intros rng minval maxval n. revert rng.
  induction n as [|n IH]; intros rng; simpl.
  - split; [reflexivity | constructor].
  - destruct (IH ((1103515245 * rng + 12345) mod 2147483648)) as [Hlen Hrange].
    split; [by rewrite Hlen |].
    intros Hlt. constructor; [| by apply Hrange].
    pose proof (Z.mod_pos_bound
      ((1103515245 * rng + 12345) mod 2147483648) (maxval - minval)).
    lia.
Qed.

Lemma digit_randint_contract : randint_contract digit_randint.
Proof.
  intros rng minval maxval n.
  induction n as [|n [Hlen Hrange]]; simpl.
  - split; [reflexivity | constructor].
  - split; [by rewrite Hlen |].
    intros Hlt. constructor; [| by apply Hrange].
    pose proof (Z.mod_pos_bound
      (rng / (maxval - minval) ^ Z.of_nat n) (maxval - minval)).
    lia.
Qed.

(** Over the sixteen keys, the draw of two offsets in [[0, 4)] is uniform. *)
Lemma digit_randint_uniform :
  uniform_draw keys16 (fun rng => digit_randint rng 0 4 2%nat) 4 2%nat.
Proof.
  split.
  - intros rng _. destruct (digit_randint_contract rng 0 4 2%nat) as [Hlen Hrange].
    split; [exact Hlen | by apply Hrange].
  - intros v [Hlen Hrange].
    destruct v as [|a [|b [|c v]]]; try discriminate Hlen.
    apply Forall_cons in Hrange as [Ha Hrange].
    apply Forall_cons in Hrange as [Hb _].
    assert (a = 0 ∨ a = 1 ∨ a = 2 ∨ a = 3) as Ha' by lia.
    assert (b = 0 ∨ b = 1 ∨ b = 2 ∨ b = 3) as Hb' by lia.
    destruct Ha' as [-> | [-> | [-> | ->]]];
      destruct Hb' as [-> | [-> | [-> | ->]]]; vm_compute; reflexivity.
Qed.

(** ** The scenarios of section 8 *)

Example scenario_evict_oldest :
  size_fn abcde4 = 4 ∧
  circular_buffer.contents (storage abcde4) = ["B"; "C"; "D"; "E"].
Proof. split; reflexivity. Qed.

Example scenario_sample_empty :
  sample_fn lcg_randint empty3 7 2 = Err EmptyBufferError.
Proof. reflexivity. Qed.

Example scenario_add_then_batch :
  ∃ state,
    add_batch_fn (item_tree := tuple_items) ab4 ["C"; "D"] = Returns state ∧
    size_fn state = 4 ∧
    circular_buffer.contents (storage state) = ["A"; "B"; "C"; "D"] ∧
    circular_buffer.full (storage state) = true.
Proof. eexists. repeat split; reflexivity. Qed.

Section properties.
Context {Item : Type} `{!Inhabited Item} {item_tree : PyTree Item}.
Context {PRNGKey : Type}.
Variable randint : PRNGKey → Z → Z → nat → list Z.

Implicit Types (state : @UniformReplayBufferState Item).
Implicit Types (buffer : circular_buffer.CircularBuffer Item).
Implicit Types (item item_prototype : Item) (batch items pre : list Item).

(** ** Sampling: the emptiness check *)

Lemma uniform_sample_unfold buffer (rng : PRNGKey) batch_size :
  uniform_sample randint buffer rng batch_size =
    if 0 <? circular_buffer.size buffer
    then Ok (circular_buffer.get_at_index buffer <$>
               randint rng 0 (circular_buffer.size buffer) batch_size)
    else Err EmptyBufferError.
Proof.
  unfold uniform_sample, check.
  destruct (0 <? circular_buffer.size buffer); reflexivity.
Qed.

(** C1. On a state of logical size 0, [sample_fn] fails with
    [EmptyBufferError] whatever the key and the batch size; on a state of
    positive logical size it does not fail: it returns a batch. *)
Theorem sample_fn_empty_buffer_error state (rng : PRNGKey) batch_size :
  (size_fn state = 0 →
     sample_fn randint state rng batch_size = Err EmptyBufferError) ∧
  (0 < size_fn state →
     ∃ batch, sample_fn randint state rng batch_size = Ok batch ∧
              sample_fn randint state rng batch_size ≠ Err EmptyBufferError).
Proof.
  unfold sample_fn, size_fn. rewrite uniform_sample_unfold. split.
  - intros ->. reflexivity.
  - intros Hpos. apply Z.ltb_lt in Hpos. rewrite Hpos.
    eexists. split; [reflexivity | discriminate].
Qed.

(** ** Batch insertion: what it returns *)

Lemma int32_of_int_returns (z z' : Z) :
  int32_of_int z = Returns z' ↔ z' = z ∧ - 2 ^ 31 ≤ z < 2 ^ 31.
Proof.
  unfold int32_of_int.
  destruct (Z.leb_spec (- 2 ^ 31) z), (Z.ltb_spec z (2 ^ 31)); simpl;
    (split; [intros [= <-] | intros [-> ?]]); try done; lia.
Qed.

Lemma wrap32_small (z : Z) : - 2 ^ 31 ≤ z < 2 ^ 31 → wrap32 z = z.
Proof. intros Hz. unfold wrap32. rewrite Z.mod_small; lia. Qed.

(** The amount by which [head] advances: the value read, unless the sum
    leaves [int32]. *)
Lemma add_batch_fn_unfold state batch :
  add_batch_fn state batch =
    n ← batch_0_shape_0 batch;
    n ← int32_of_int n;
    _ ← int32_of_int (circular_buffer.max_size (storage state));
    mret (batch_inserted state batch
            (wrap32 (circular_buffer.head (storage state) + n)
             - circular_buffer.head (storage state))).
Proof.
  unfold add_batch_fn.
  destruct (batch_0_shape_0 batch) as [n | e]; [| reflexivity]. simpl.
  destruct (int32_of_int n) as [n' | e]; [| reflexivity]. simpl.
  destruct (int32_of_int _) as [m |] eqn:Hm; [| reflexivity]. simpl.
  apply int32_of_int_returns in Hm as [-> _].
  unfold batch_inserted. do 4 f_equal; f_equal; lia.
Qed.

Lemma add_batch_fn_returns state batch state' :
  add_batch_fn state batch = Returns state' ↔
  ∃ n, batch_0_shape_0 batch = Returns n ∧
       - 2 ^ 31 ≤ n < 2 ^ 31 ∧
       - 2 ^ 31 ≤ circular_buffer.max_size (storage state) < 2 ^ 31 ∧
       state' = batch_inserted state batch
                  (wrap32 (circular_buffer.head (storage state) + n)
                   - circular_buffer.head (storage state)).
Proof.
  rewrite add_batch_fn_unfold.
  destruct (batch_0_shape_0 batch) as [n | e]; simpl.
  2: { split; [discriminate | intros (n' & Hn & _); discriminate]. }
  destruct (int32_of_int n) as [n' | e] eqn:Hn; simpl.
  2: { split; [discriminate |]. intros (n' & [= <-] & Hrange & _).
       assert (int32_of_int n = Returns n) as Hn'
         by (by apply int32_of_int_returns).
       congruence. }
  apply int32_of_int_returns in Hn as [-> Hn].
  destruct (int32_of_int _) as [m | e] eqn:Hm; simpl.
  2: { split; [discriminate |]. intros (n' & _ & _ & Hrange & _).
       assert (int32_of_int (circular_buffer.max_size (storage state)) =
               Returns (circular_buffer.max_size (storage state))) as Hm'
         by (by apply int32_of_int_returns).
       congruence. }
  apply int32_of_int_returns in Hm as [-> Hm].
  split.
  - intros [= <-]. by exists n.
  - intros (n' & [= <-] & _ & _ & ->). reflexivity.
Qed.

(** When nothing overflows, [head] advances by the value read. *)
Lemma add_batch_fn_returns_exact state batch (n : Z) :
  batch_0_shape_0 batch = Returns n →
  - 2 ^ 31 ≤ n < 2 ^ 31 →
  - 2 ^ 31 ≤ circular_buffer.max_size (storage state) < 2 ^ 31 →
  - 2 ^ 31 ≤ circular_buffer.head (storage state) + n < 2 ^ 31 →
  add_batch_fn state batch = Returns (batch_inserted state batch n).
Proof.
  intros Hn Hn32 Hm32 Hsum. apply add_batch_fn_returns.
  exists n. repeat (split; [done |]).
  rewrite wrap32_small by done. f_equal. lia.
Qed.

Lemma batch_0_shape_0_nonneg batch (n : Z) :
  batch_0_shape_0 batch = Returns n → 0 ≤ n.
Proof.
  unfold batch_0_shape_0, getitem_0_shape_0.
  destruct treedef_of as [[|d shape] | [|[shape | children | fields] rest] | fields];
    destruct (length batch); try discriminate; intros [= <-]; lia.
Qed.

Lemma batch_0_shape_0_empty (n : Z) :
  batch_0_shape_0 ([] : list Item) = Returns n → n = 0.
Proof.
  unfold batch_0_shape_0, getitem_0_shape_0. simpl.
  destruct treedef_of as [shape | [|[shape | children | fields] rest] | fields];
    try discriminate.
  by intros [= <-].
Qed.

(** ** Update: every physical slot, and nothing but the data *)

(** C5. [update_fn] replaces the contents of every one of the [max_size]
    physical slots by [f] of its previous contents, whether or not the slot
    is in the logical range. *)
Theorem update_fn_every_slot state (f : Item → Item) :
  let data := circular_buffer.data (storage state) in
  let data' := circular_buffer.data (storage (update_fn state f)) in
  length data' = length data ∧
  (∀ p : nat, data' !! p = f <$> data !! p) ∧
  (∀ p : nat, (p < length data)%nat → data' !!! p = f (data !!! p)).
Proof.
  simpl. unfold vmap. split; [apply length_map |].
  split; intros p.
  - apply list_lookup_fmap.
  - intros Hp. apply list_lookup_total_fmap. exact Hp.
Qed.

(** C9. [update_fn] leaves [head], [tail] and [full] as they were. *)
Theorem update_fn_cursors_unchanged state (f : Item → Item) :
  let buffer := storage state in
  let buffer' := storage (update_fn state f) in
  circular_buffer.head buffer' = circular_buffer.head buffer ∧
  circular_buffer.tail buffer' = circular_buffer.tail buffer ∧
  circular_buffer.full buffer' = circular_buffer.full buffer.
Proof. repeat split. Qed.

Lemma update_fn_id state : update_fn state (fun item => item) = state.
Proof.
  destruct state as [[data head tail full]].
  unfold update_fn, replace_storage, circular_buffer.replace_data, vmap; simpl.
  by rewrite map_id.
Qed.

(** C7. [update_fn] with the identity transformation changes neither
    [size_fn] nor the result of [sample_fn], for any key and batch size. *)
Theorem update_fn_identity_unobservable state :
  let state' := update_fn state (fun item => item) in
  size_fn state' = size_fn state ∧
  ∀ (rng : PRNGKey) batch_size,
    sample_fn randint state' rng batch_size =
    sample_fn randint state rng batch_size.
Proof. simpl. rewrite update_fn_id. split; reflexivity. Qed.

(** ** Modular arithmetic on slots *)

Lemma mod_eq_close (m a b : Z) :
  0 < m → a mod m = b mod m → - m < a - b < m → a = b.
Proof.
  intros Hm Heq Hclose.
  pose proof (Z.div_mod a m ltac:(lia)) as Ha.
  pose proof (Z.div_mod b m ltac:(lia)) as Hb.
  rewrite Heq in Ha.
  assert (a / m = b / m) by nia.
  congruence.
Qed.

Lemma slot_in_range (m z : Z) (l : list Item) :
  m = Z.of_nat (length l) → 0 < m → (Z.to_nat (z mod m) < length l)%nat.
Proof. intros -> Hm. pose proof (Z.mod_pos_bound z _ Hm). lia. Qed.

(** ** Batch insertion: the slots written *)

Lemma length_set_pytree_batch_items (data : list Item) index batch :
  length (utils.set_pytree_batch_items data index batch) = length data.
Proof.
  revert data index. induction batch as [|item rest IH]; intros data index.
  - reflexivity.
  - simpl. rewrite IH. apply length_insert.
Qed.

Lemma set_pytree_batch_items_other (data : list Item) index batch (p : nat) :
  (0 < length data)%nat →
  (∀ i : nat, (i < length batch)%nat →
     (index + Z.of_nat i) mod Z.of_nat (length data) ≠ Z.of_nat p) →
  utils.set_pytree_batch_items data index batch !! p = data !! p.
Proof.
  revert data index. induction batch as [|item rest IH]; intros data index Hm Hp.
  - reflexivity.
  - simpl. unfold utils.set_pytree_batch_item. rewrite IH.
    + apply list_lookup_insert_ne.
      specialize (Hp 0%nat ltac:(simpl; lia)). rewrite Z.add_0_r in Hp.
      pose proof (Z.mod_pos_bound index (Z.of_nat (length data)) ltac:(lia)).
      lia.
    + by rewrite length_insert.
    + intros i Hi. rewrite length_insert.
      specialize (Hp (S i) ltac:(simpl; lia)).
      by replace (index + 1 + Z.of_nat i) with (index + Z.of_nat (S i)) by lia.
Qed.

Lemma set_pytree_batch_items_written (data : list Item) index batch (i : nat) item :
  (0 < length data)%nat →
  batch !! i = Some item →
  (∀ j : nat, (i < j < length batch)%nat →
     (index + Z.of_nat j) mod Z.of_nat (length data) ≠
     (index + Z.of_nat i) mod Z.of_nat (length data)) →
  utils.set_pytree_batch_items data index batch
    !! Z.to_nat ((index + Z.of_nat i) mod Z.of_nat (length data)) = Some item.
Proof.
  revert data index i.
  induction batch as [|x rest IH]; intros data index i Hm Hi Hlast; [done |].
  pose proof (Z.mod_pos_bound (index + Z.of_nat i) (Z.of_nat (length data))
                ltac:(lia)) as Hbound.
  destruct i as [|i]; simpl in *.
  - injection Hi as ->. unfold utils.set_pytree_batch_item.
    rewrite Z.add_0_r in *.
    rewrite set_pytree_batch_items_other.
    + apply list_lookup_insert_eq. lia.
    + by rewrite length_insert.
    + intros j Hj. rewrite length_insert, Z2Nat.id by lia.
      specialize (Hlast (S j) ltac:(lia)).
      by replace (index + 1 + Z.of_nat j) with (index + Z.of_nat (S j)) by lia.
  - unfold utils.set_pytree_batch_item.
    specialize (IH (<[Z.to_nat (index mod Z.of_nat (length data)) := x]> data)
                  (index + 1) i).
    rewrite length_insert in IH.
    replace (index + 1 + Z.of_nat i) with (index + Z.of_nat (S i)) in IH by lia.
    apply IH; [done | done |].
    intros j Hj. specialize (Hlast (S j) ltac:(lia)).
    by replace (index + 1 + Z.of_nat j) with (index + Z.of_nat (S j)) by lia.
Qed.

(** C3. [add_batch_fn] writes the [N] items of the batch into the physical
    slots [head, head+1, ..., head+N-1] taken modulo [max_size], over what
    was there, and leaves every other slot as it was.  Item [i] is found in
    slot [(head + i) mod max_size] unless a later item of the same batch
    falls on that slot, which cannot happen when [N <= max_size].  This
    holds of the state returned, and a state is returned whenever the read
    [batch[0].shape[0]] of line 48 evaluates and, like [max_size], fits
    [int32]. *)
Theorem add_batch_fn_writes_slots state batch :
  let buffer := storage state in
  let m := circular_buffer.max_size buffer in
  let h := circular_buffer.head buffer in
  0 < m →
  (∀ n, batch_0_shape_0 batch = Returns n → n < 2 ^ 31 → m < 2 ^ 31 →
     ∃ state', add_batch_fn state batch = Returns state') ∧
  ∀ state', add_batch_fn state batch = Returns state' →
    let data' := circular_buffer.data (storage state') in
    length data' = length (circular_buffer.data buffer) ∧
    (∀ (i : nat) item, batch !! i = Some item →
       (∀ j : nat, (i < j < length batch)%nat →
          (h + Z.of_nat j) mod m ≠ (h + Z.of_nat i) mod m) →
       data' !! Z.to_nat ((h + Z.of_nat i) mod m) = Some item) ∧
    (Z.of_nat (length batch) ≤ m →
       ∀ (i : nat) item, batch !! i = Some item →
         data' !! Z.to_nat ((h + Z.of_nat i) mod m) = Some item) ∧
    (∀ p : nat,
       (∀ i : nat, (i < length batch)%nat → (h + Z.of_nat i) mod m ≠ Z.of_nat p) →
       data' !! p = circular_buffer.data buffer !! p).
Proof.
  simpl. unfold circular_buffer.max_size. intros Hm. split.
  { intros n Hn Hn32 Hm32. eexists. apply add_batch_fn_returns.
    exists n. pose proof (batch_0_shape_0_nonneg _ _ Hn).
    unfold circular_buffer.max_size.
    split; [done |]. split; [lia |]. split; [lia | reflexivity]. }
  intros state' (n & _ & _ & _ & ->)%add_batch_fn_returns. simpl.
  split; [apply length_set_pytree_batch_items |].
  split; [| split].
  - intros i item Hi Hlast. apply set_pytree_batch_items_written; [lia | done | done].
  - intros Hfit i item Hi.
    apply set_pytree_batch_items_written; [lia | done |].
    intros j Hj Heq. apply lookup_lt_Some in Hi.
    apply mod_eq_close in Heq; lia.
  - intros p Hp. apply set_pytree_batch_items_other; [lia | done].
Qed.

(** C10. On a state with [head = tail] and [full = false] (an empty
    buffer), [add_batch_fn] with a batch of length zero returns a state with
    [full = true], hence of size [max_size], although the data is
    unchanged.  A state is returned whenever the read [batch[0].shape[0]]
    of line 48 evaluates on the empty batch and [max_size] fits [int32]. *)
Theorem add_batch_fn_empty_batch_marks_full state :
  let buffer := storage state in
  0 ≤ circular_buffer.head buffer < circular_buffer.max_size buffer →
  circular_buffer.head buffer = circular_buffer.tail buffer →
  circular_buffer.full buffer = false →
  size_fn state = 0 ∧
  (∀ n, batch_0_shape_0 ([] : list Item) = Returns n →
     circular_buffer.max_size buffer < 2 ^ 31 →
     ∃ state', add_batch_fn state [] = Returns state') ∧
  ∀ state', add_batch_fn state [] = Returns state' →
    circular_buffer.full (storage state') = true ∧
    size_fn state' = circular_buffer.max_size buffer ∧
    circular_buffer.data (storage state') = circular_buffer.data buffer.
Proof.
  simpl. intros Hhead Heq Hfull. split; [| split].
  - unfold size_fn, circular_buffer.size.
    rewrite Hfull, <- Heq, Z.sub_diag. reflexivity.
  - intros n Hn Hm32. eexists. apply add_batch_fn_returns.
    exists n. split; [done |].
    apply batch_0_shape_0_empty in Hn as ->.
    split; [lia |]. split; [lia | reflexivity].
  - intros state' (n & Hn & _ & Hm32 & ->)%add_batch_fn_returns.
    apply batch_0_shape_0_empty in Hn as ->.
    rewrite Z.add_0_r, wrap32_small, Z.sub_diag by lia.
    unfold size_fn, circular_buffer.size, batch_inserted. simpl.
    rewrite Hfull, <- Heq, Z.add_0_r.
    rewrite (Z.mod_small (circular_buffer.head _)) by lia.
    rewrite Z.eqb_refl. repeat split.
Qed.

(** ** Sampling: the draw *)

Lemma sample_fn_ok state (rng : PRNGKey) batch_size :
  0 < size_fn state →
  sample_fn randint state rng batch_size =
    Ok (circular_buffer.get_at_index (storage state) <$>
          randint rng 0 (size_fn state) batch_size).
Proof.
  intros Hpos. unfold sample_fn, size_fn in *. rewrite uniform_sample_unfold.
  apply Z.ltb_lt in Hpos. by rewrite Hpos.
Qed.

Lemma sample_fn_in_contents state (rng : PRNGKey) batch_size batch item :
  randint_contract randint →
  0 < size_fn state →
  sample_fn randint state rng batch_size = Ok batch →
  item ∈ batch → item ∈ circular_buffer.contents (storage state).
Proof.
  intros Hcontract Hpos Hbatch Hitem.
  destruct (Hcontract rng 0 (size_fn state) batch_size) as [_ Hrange].
  specialize (Hrange Hpos).
  rewrite sample_fn_ok in Hbatch by done. injection Hbatch as <-.
  apply list_elem_of_fmap in Hitem as (i & -> & Hi).
  unfold circular_buffer.contents. apply list_elem_of_fmap.
  exists i. split; [reflexivity |].
  rewrite Forall_forall in Hrange. specialize (Hrange i Hi).
  apply elem_of_seqZ. unfold size_fn in Hrange. lia.
Qed.

Lemma contents_lookup buffer (i : Z) :
  0 ≤ i < circular_buffer.size buffer →
  circular_buffer.contents buffer !! Z.to_nat i =
    Some (circular_buffer.get_at_index buffer i).
Proof.
  intros Hi. unfold circular_buffer.contents.
  rewrite list_lookup_fmap, lookup_seqZ_lt by lia.
  simpl. by rewrite Z2Nat.id by lia.
Qed.

Lemma length_contents buffer :
  length (circular_buffer.contents buffer) =
    Z.to_nat (circular_buffer.size buffer).
Proof. unfold circular_buffer.contents. by rewrite length_fmap, length_seqZ. Qed.

Lemma get_at_index_inj buffer (i j : Z) :
  NoDup (circular_buffer.contents buffer) →
  0 ≤ i < circular_buffer.size buffer →
  0 ≤ j < circular_buffer.size buffer →
  circular_buffer.get_at_index buffer i = circular_buffer.get_at_index buffer j →
  i = j.
Proof.
  intros Hdistinct Hi Hj Heq.
  pose proof (contents_lookup buffer i Hi) as Hli.
  pose proof (contents_lookup buffer j Hj) as Hlj.
  rewrite <- Heq in Hlj.
  pose proof (NoDup_lookup _ _ _ _ Hdistinct Hli Hlj). lia.
Qed.

Lemma fmap_get_at_index_inj buffer (u v : list Z) :
  NoDup (circular_buffer.contents buffer) →
  Forall (fun i => 0 ≤ i < circular_buffer.size buffer) u →
  Forall (fun i => 0 ≤ i < circular_buffer.size buffer) v →
  circular_buffer.get_at_index buffer <$> u =
    circular_buffer.get_at_index buffer <$> v →
  u = v.
Proof.
  intros Hdistinct Hu. revert v.
  induction Hu as [|i u Hi Hu IH]; intros [|j v] Hv Heq; try done.
  apply Forall_cons in Hv as [Hj Hv]. simpl in Heq.
  injection Heq as Hhead Htail.
  f_equal; [by apply (get_at_index_inj buffer) | by apply IH].
Qed.

Lemma resident_batch_offsets buffer batch :
  (∀ item, item ∈ batch → item ∈ circular_buffer.contents buffer) →
  ∃ v, length v = length batch ∧
       Forall (fun i => 0 ≤ i < circular_buffer.size buffer) v ∧
       batch = circular_buffer.get_at_index buffer <$> v.
Proof.
  induction batch as [|item batch IH]; intros Hresident.
  - exists []. split; [done |]. split; [constructor | done].
  - destruct IH as (v & Hlen & Hrange & ->).
    { intros x Hx. apply Hresident. by right. }
    pose proof (Hresident item ltac:(left)) as Hitem.
    unfold circular_buffer.contents in Hitem.
    apply list_elem_of_fmap in Hitem as (i & -> & Hi).
    apply elem_of_seqZ in Hi.
    exists (i :: v). split; [simpl; by rewrite Hlen |].
    split; [constructor; [lia | done] | done].
Qed.

(** C4. On a state of positive logical size [sz], [sample_fn] returns the
    items at the logical offsets given by one draw of [randint] of shape
    [(batch_size,)] over [[0, sz)].  The offsets all lie in [[0, sz)] and
    every item returned is one of the logical contents.  When the draw of
    [jax.random.randint] is uniform over the keys (independent uniform
    offsets, with replacement), so are the offsets [sample_fn] uses: every
    vector of [batch_size] offsets in [[0, sz)] is used for one key in
    [sz ^ batch_size]; and when the resident items are distinct, every
    batch of [batch_size] resident items, repetitions allowed, is returned
    for one key in [sz ^ batch_size]. *)
Theorem sample_fn_draws_resident `{!EqDecision Item}
    state (keys : list PRNGKey) batch_size :
  let sz := size_fn state in
  let draw := fun rng => randint rng 0 sz batch_size in
  let resident := circular_buffer.contents (storage state) in
  randint_contract randint →
  0 < sz →
  uniform_draw keys draw sz batch_size →
  (∀ rng,
     sample_fn randint state rng batch_size =
       Ok (circular_buffer.get_at_index (storage state) <$> draw rng) ∧
     offset_vector sz batch_size (draw rng)) ∧
  (∀ rng batch, sample_fn randint state rng batch_size = Ok batch →
     length batch = batch_size ∧ ∀ item, item ∈ batch → item ∈ resident) ∧
  (∀ v, offset_vector sz batch_size v →
     Z.of_nat (count_keys keys draw v) * sz ^ Z.of_nat batch_size =
       Z.of_nat (length keys)) ∧
  (NoDup resident →
   ∀ batch, length batch = batch_size →
     (∀ item, item ∈ batch → item ∈ resident) →
     Z.of_nat (count_keys keys
                 (fun rng => sample_fn randint state rng batch_size) (Ok batch))
       * sz ^ Z.of_nat batch_size = Z.of_nat (length keys)).
Proof.
  intros sz draw resident Hcontract Hpos [_ Huniform].
  assert (Hdraw : ∀ rng, offset_vector sz batch_size (draw rng)).
  { intros rng. destruct (Hcontract rng 0 sz batch_size) as [Hlen Hrange].
    split; [exact Hlen | by apply Hrange]. }
  assert (Hsample : ∀ rng, sample_fn randint state rng batch_size =
    Ok (circular_buffer.get_at_index (storage state) <$> draw rng))
    by (intros rng; by apply sample_fn_ok).
  split; [intros rng; split; [apply Hsample | apply Hdraw] |].
  split.
  { intros rng batch Hbatch. split.
    - rewrite Hsample in Hbatch. injection Hbatch as <-.
      rewrite length_fmap. apply Hdraw.
    - intros item. by apply (sample_fn_in_contents state rng batch_size). }
  split; [exact Huniform |].
  intros Hdistinct batch Hlen Hresident.
  destruct (resident_batch_offsets (storage state) batch Hresident)
    as (v & Hv & Hrange & ->).
  rewrite <- (Huniform v) by (split; [congruence | exact Hrange]).
  do 3 f_equal. unfold count_keys. f_equal.
  apply list_filter_iff. intros rng. rewrite Hsample. split.
  - intros [= Heq]. apply (fmap_get_at_index_inj (storage state)); try done.
    apply Hdraw.
  - by intros ->.
Qed.

(** ** Single insertion: the window of the last [max_size] items *)

Lemma pushed_init (m : nat) item_prototype :
  (0 < m)%nat → pushed m [] (circular_buffer.init item_prototype m).
Proof.
  intros Hm. unfold pushed; simpl.
  split; [apply length_replicate |].
  split; [reflexivity |].
  change (Z.of_nat 0) with 0.
  split; [by destruct (0 <? Z.of_nat m) |].
  split; [symmetry; apply Z.leb_gt; lia |].
  intros j Hj. lia.
Qed.

Lemma pushed_push (m : nat) items buffer item :
  (0 < m)%nat → pushed m items buffer →
  pushed m (items ++ [item]) (circular_buffer.push buffer item).
Proof.
  intros Hm (Hlen & Hhead & Htail & Hfull & Hdata).
  unfold pushed, circular_buffer.push, circular_buffer.max_size in *.
  simpl in *. rewrite length_app, Hlen, Hhead, Htail, Hfull. simpl.
  replace (Z.of_nat (length items + 1)) with (Z.of_nat (length items) + 1) by lia.
  set (k := Z.of_nat (length items)) in *. set (M := Z.of_nat m) in *.
  assert (0 < M) by lia. assert (0 ≤ k) by lia.
  assert (Hstep : (k mod M + 1) mod M = (k + 1) mod M)
    by (by rewrite Z.add_mod_idemp_l by lia).
  split; [unfold utils.set_pytree_batch_item; by rewrite length_insert |].
  split; [exact Hstep |].
  destruct (Z.leb_spec M k) as [Hge | Hlt].
  - (* the storage was full: the oldest item is evicted *)
    destruct (Z.ltb_spec k M); [lia |].
    destruct (Z.ltb_spec (k + 1) M); [lia |].
    rewrite Hstep, Z.eqb_refl.
    split; [reflexivity |]. split; [symmetry; apply Z.leb_le; lia |].
    intros j Hj. unfold utils.set_pytree_batch_item.
    destruct (decide (Z.of_nat j = k)) as [Hjk | Hjk].
    + rewrite Hjk. rewrite list_lookup_insert_eq
        by (apply slot_in_range; unfold M; lia).
      symmetry. replace j with (length items + 0)%nat by lia.
      by rewrite lookup_app_r, Nat.add_sub' by lia.
    + rewrite list_lookup_insert_ne.
      * rewrite lookup_app_l by lia. apply Hdata. lia.
      * intros Heq.
        pose proof (Z.mod_pos_bound k M ltac:(lia)).
        pose proof (Z.mod_pos_bound (Z.of_nat j) M ltac:(lia)).
        assert (k mod M = Z.of_nat j mod M) as Hmod by lia.
        apply mod_eq_close in Hmod; lia.
  - (* the storage was not full *)
    destruct (Z.ltb_spec k M); [| lia].
    rewrite (Z.mod_small k M) in * by lia.
    split.
    { destruct (Z.ltb_spec (k + 1) M); [reflexivity |].
      replace (k + 1) with M by lia. symmetry. apply Z.mod_same. lia. }
    split.
    { destruct (Z.leb_spec M (k + 1)).
      - replace (k + 1) with M by lia. rewrite Z.mod_same by lia. reflexivity.
      - rewrite Z.mod_small by lia. apply Z.eqb_neq. lia. }
    intros j Hj. unfold utils.set_pytree_batch_item.
    rewrite (Z.mod_small (Z.of_nat j) M) by lia. rewrite Nat2Z.id.
    destruct (decide (Z.of_nat j = k)) as [Hjk | Hjk].
    + replace (Z.to_nat k) with j by lia.
      rewrite list_lookup_insert_eq by lia.
      symmetry. replace j with (length items + 0)%nat at 1 by lia.
      by rewrite lookup_app_r, Nat.add_sub' by lia.
    + rewrite list_lookup_insert_ne by lia.
      rewrite lookup_app_l by lia.
      specialize (Hdata j ltac:(lia)).
      by rewrite (Z.mod_small (Z.of_nat j) M), Nat2Z.id in Hdata by lia.
Qed.

Lemma storage_add_all state items :
  storage (add_all state items) =
  fold_left circular_buffer.push items (storage state).
Proof.
  revert state. induction items as [|item rest IH]; intros state; [done |].
  unfold add_all in *. simpl. by rewrite IH.
Qed.

Lemma pushed_fold_push (m : nat) pre items buffer :
  (0 < m)%nat → pushed m pre buffer →
  pushed m (pre ++ items) (fold_left circular_buffer.push items buffer).
Proof.
  intros Hm. revert pre buffer.
  induction items as [|item rest IH]; intros pre buffer Hpushed; simpl.
  - by rewrite app_nil_r.
  - rewrite cons_middle, (assoc_L (++)).
    apply IH. by apply pushed_push.
Qed.

Lemma pushed_add_all (m : nat) item_prototype items :
  (0 < m)%nat →
  pushed m items (storage (add_all (init_fn m item_prototype) items)).
Proof.
  intros Hm. rewrite storage_add_all.
  apply (pushed_fold_push m [] items); [done |]. by apply pushed_init.
Qed.

Lemma pushed_size (m : nat) items buffer :
  (0 < m)%nat → pushed m items buffer →
  circular_buffer.size buffer = Z.of_nat (length items) `min` Z.of_nat m.
Proof.
  intros Hm (Hlen & Hhead & Htail & Hfull & _).
  unfold circular_buffer.size, circular_buffer.max_size.
  rewrite Hfull, Hhead, Htail, Hlen.
  destruct (Z.leb_spec (Z.of_nat m) (Z.of_nat (length items))); [lia |].
  destruct (Z.ltb_spec (Z.of_nat (length items)) (Z.of_nat m)); [| lia].
  rewrite Z.sub_0_r, Z.mod_mod, Z.mod_small by lia. lia.
Qed.

Lemma pushed_get_at_index (m : nat) items buffer (i : nat) :
  (0 < m)%nat → pushed m items buffer →
  (i < length items `min` m)%nat →
  items !! (length items - m + i)%nat =
    Some (circular_buffer.get_at_index buffer (Z.of_nat i)).
Proof.
  intros Hm (Hlen & Hhead & Htail & Hfull & Hdata) Hi.
  unfold circular_buffer.get_at_index, circular_buffer.max_size,
    utils.get_pytree_batch_item.
  rewrite Htail, Hlen.
  rewrite <- Hdata by lia.
  set (k := Z.of_nat (length items)) in *. set (M := Z.of_nat m) in *.
  assert (Hslot : ((if k <? M then 0 else k mod M) + Z.of_nat i) mod M =
                  Z.of_nat (length items - m + i) mod M).
  { destruct (Z.ltb_spec k M).
    - f_equal. lia.
    - rewrite Z.add_mod_idemp_l by lia.
      replace (k + Z.of_nat i) with (Z.of_nat (length items - m + i) + 1 * M)
        by lia.
      apply Z.mod_add. lia. }
  rewrite Hslot.
  apply list_lookup_lookup_total_lt, slot_in_range; unfold M; lia.
Qed.

Lemma pushed_contents (m : nat) items buffer :
  (0 < m)%nat → pushed m items buffer →
  circular_buffer.contents buffer = drop (length items - m) items.
Proof.
  intros Hm Hpushed. unfold circular_buffer.contents.
  rewrite (pushed_size m items) by done.
  apply list_eq. intros i. rewrite list_lookup_fmap, lookup_drop.
  destruct (decide (i < length items `min` m)%nat) as [Hi | Hi].
  - rewrite lookup_seqZ_lt by lia. simpl.
    by rewrite (pushed_get_at_index m items buffer i).
  - rewrite lookup_seqZ_ge by lia. simpl.
    symmetry. apply lookup_ge_None. lia.
Qed.

Lemma pushed_data_window (m : nat) items buffer item :
  (0 < m)%nat → pushed m items buffer → (m ≤ length items)%nat →
  item ∈ circular_buffer.data buffer → item ∈ drop (length items - m) items.
Proof.
  intros Hm (Hlen & _ & _ & _ & Hdata) Hk Hitem.
  apply list_elem_of_lookup in Hitem as [p Hp].
  pose proof (lookup_lt_Some _ _ _ Hp) as Hpm. rewrite Hlen in Hpm.
  set (lo := (length items - m)%nat).
  pose proof (Z.mod_pos_bound (Z.of_nat p - Z.of_nat lo) (Z.of_nat m)
                ltac:(lia)) as Hbound.
  assert (Hslot : (Z.of_nat lo +
                   (Z.of_nat p - Z.of_nat lo) mod Z.of_nat m) mod Z.of_nat m
                  = Z.of_nat p).
  { rewrite Z.add_mod_idemp_r by lia.
    replace (Z.of_nat lo + (Z.of_nat p - Z.of_nat lo)) with (Z.of_nat p) by lia.
    apply Z.mod_small. lia. }
  remember ((Z.of_nat p - Z.of_nat lo) mod Z.of_nat m) as r eqn:Hr.
  specialize (Hdata (lo + Z.to_nat r)%nat ltac:(unfold lo; lia)).
  rewrite Nat2Z.inj_add, Z2Nat.id, Hslot, Nat2Z.id, Hp in Hdata by lia.
  apply list_elem_of_lookup.
  exists (Z.to_nat r). by rewrite lookup_drop.
Qed.

(** C6. After [init_fn] and [k] sequential [add_fn] calls with distinct
    items, for a capacity [max_size > 0]: if [0 < k <= max_size] the size is
    [k], the logical contents are the [k] items in insertion order and a
    sample holds only items among them; if [k > max_size] the size is
    [max_size], the logical contents are the last [max_size] items inserted,
    oldest first, and no earlier item is left in any slot of the storage. *)
Theorem add_fn_sequence_window (max_size : nat) item_prototype items :
  let k := length items in
  let state := add_all (init_fn max_size item_prototype) items in
  (0 < max_size)%nat →
  randint_contract randint →
  NoDup items →
  ((0 < k ≤ max_size)%nat →
     size_fn state = Z.of_nat k ∧
     circular_buffer.contents (storage state) = items ∧
     ∀ (rng : PRNGKey) batch_size,
       ∃ batch, sample_fn randint state rng batch_size = Ok batch ∧
                ∀ item, item ∈ batch → item ∈ items) ∧
  ((max_size < k)%nat →
     size_fn state = Z.of_nat max_size ∧
     circular_buffer.contents (storage state) = drop (k - max_size) items ∧
     (∀ item, item ∈ take (k - max_size) items →
        (item ∉ circular_buffer.data (storage state)) ∧
        (item ∉ circular_buffer.contents (storage state))) ∧
     ∀ (rng : PRNGKey) batch_size,
       ∃ batch, sample_fn randint state rng batch_size = Ok batch ∧
                ∀ item, item ∈ batch → item ∈ drop (k - max_size) items).
Proof.
  intros k state Hm Hcontract Hdistinct.
  pose proof (pushed_add_all max_size item_prototype items Hm) as Hpushed.
  fold state in Hpushed.
  pose proof (pushed_size _ _ _ Hm Hpushed) as Hsize.
  pose proof (pushed_contents _ _ _ Hm Hpushed) as Hcontents.
  fold k in Hsize, Hcontents. change (size_fn state = Z.of_nat k `min` Z.of_nat max_size) in Hsize.
  assert (Hsample : (0 < k)%nat → ∀ (rng : PRNGKey) batch_size,
    ∃ batch, sample_fn randint state rng batch_size = Ok batch ∧
             ∀ item, item ∈ batch → item ∈ drop (k - max_size) items).
  { intros Hk rng batch_size. eexists. split; [apply sample_fn_ok; lia |].
    intros item Hitem. rewrite <- Hcontents.
    eapply (sample_fn_in_contents state rng batch_size);
      [done | lia | apply sample_fn_ok; lia | done]. }
  split.
  - intros Hk.
    replace (k - max_size)%nat with 0%nat in * by lia. rewrite drop_0 in *.
    split; [lia |]. split; [done |]. apply Hsample. lia.
  - intros Hk. split; [lia |]. split; [done |]. split; [| apply Hsample; lia].
    intros item Hitem.
    rewrite <- (take_drop (k - max_size) items) in Hdistinct.
    apply NoDup_app in Hdistinct as (_ & Hdisjoint & _).
    specialize (Hdisjoint item Hitem).
    split; [| by rewrite Hcontents].
    intros Hin. apply Hdisjoint.
    by apply (pushed_data_window max_size items (storage state)); [| | lia |].
Qed.

(** ** The storage invariant is kept by every transition *)

Lemma wf_init_fn (max_size : nat) item_prototype :
  (0 < max_size)%nat →
  circular_buffer.wf (storage (init_fn max_size item_prototype)).
Proof.
  intros Hm. unfold circular_buffer.wf, circular_buffer.max_size. simpl.
  rewrite length_replicate. lia.
Qed.

Lemma wf_add_fn state item :
  circular_buffer.wf (storage state) →
  circular_buffer.wf (storage (add_fn state item)).
Proof.
  unfold circular_buffer.wf. simpl.
  unfold circular_buffer.max_size. simpl.
  unfold utils.set_pytree_batch_item.
  rewrite length_insert. intros [Hhead Htail].
  set (M := Z.of_nat (length (circular_buffer.data (storage state)))) in *.
  pose proof (Z.mod_pos_bound (circular_buffer.head (storage state) + 1) M
                ltac:(lia)).
  pose proof (Z.mod_pos_bound (circular_buffer.tail (storage state) + 1) M
                ltac:(lia)).
  destruct (circular_buffer.full (storage state)); lia.
Qed.

Lemma wf_batch_inserted state batch (n : Z) :
  circular_buffer.wf (storage state) →
  circular_buffer.wf (storage (batch_inserted state batch n)).
Proof.
  unfold circular_buffer.wf. simpl.
  unfold circular_buffer.max_size. simpl.
  rewrite length_set_pytree_batch_items. intros [Hhead Htail].
  set (M := Z.of_nat (length (circular_buffer.data (storage state)))) in *.
  pose proof (Z.mod_pos_bound (circular_buffer.head (storage state) + n)
                M ltac:(lia)).
  destruct (circular_buffer.full (storage state)); lia.
Qed.

Lemma wf_add_batch_fn state batch state' :
  circular_buffer.wf (storage state) →
  add_batch_fn state batch = Returns state' →
  circular_buffer.wf (storage state').
Proof.
  intros Hwf (n & _ & _ & _ & ->)%add_batch_fn_returns.
  by apply wf_batch_inserted.
Qed.

Lemma wf_update_fn state (f : Item → Item) :
  circular_buffer.wf (storage state) →
  circular_buffer.wf (storage (update_fn state f)).
Proof.
  unfold circular_buffer.wf, circular_buffer.max_size. simpl.
  unfold vmap. by rewrite length_map.
Qed.

End properties.

(** * The theorems at concrete buffers *)

Lemma NoDup_abcde : NoDup ["A"; "B"; "C"; "D"; "E"].
Proof. apply (bool_decide_unpack _). vm_compute. reflexivity. Qed.

(** A batch of two written at [head = 3] in a storage of four slots: the
    second item wraps to slot 0, slots 1 and 2 keep their contents. *)
Lemma add_batch_fn_writes_slots_witness :
  let data := circular_buffer.data (storage abc4) in
  0 < circular_buffer.max_size (storage abc4) ∧
  ∃ state',
    add_batch_fn (item_tree := tuple_items) abc4 ["D"; "E"] = Returns state' ∧
    let data' := circular_buffer.data (storage state') in
    length data' = 4%nat ∧
    data' !! 3%nat = Some "D" ∧ data' !! 0%nat = Some "E" ∧
    data' !! 1%nat = data !! 1%nat ∧ data' !! 2%nat = data !! 2%nat.
Proof.
  assert (Hm : 0 < circular_buffer.max_size (storage abc4)) by reflexivity.
  split; [exact Hm |].
  destruct (add_batch_fn_writes_slots (item_tree := tuple_items)
              abc4 ["D"; "E"] Hm) as [Hreturns Hslots].
  destruct (Hreturns 2 eq_refl eq_refl eq_refl) as [state' Hstate'].
  exists state'. split; [exact Hstate' |].
  destruct (Hslots state' Hstate') as (Hlen & _ & Hwritten & Hother).
  split; [exact Hlen |].
  split; [exact (Hwritten ltac:(vm_compute; discriminate) 0%nat "D" eq_refl) |].
  split; [exact (Hwritten ltac:(vm_compute; discriminate) 1%nat "E" eq_refl) |].
  split; apply Hother; intros [|[|i]] Hi; vm_compute; try discriminate;
    simpl in Hi; lia.
Defined.

(** The buffer holds ["B"], ["C"], ["D"], ["E"]: over the sixteen keys the
    batch [["C"; "E"]] is returned for one key in sixteen, and so is the
    batch [["D"; "D"]]. *)
Lemma sample_fn_draws_resident_witness :
  Z.of_nat (count_keys keys16
              (fun rng => sample_fn digit_randint abcde4 rng 2%nat) (Ok ["C"; "E"]))
    * 4 ^ 2 = 16 ∧
  Z.of_nat (count_keys keys16
              (fun rng => sample_fn digit_randint abcde4 rng 2%nat) (Ok ["D"; "D"]))
    * 4 ^ 2 = 16.
Proof.
  destruct (sample_fn_draws_resident digit_randint abcde4 keys16 2%nat
              digit_randint_contract eq_refl digit_randint_uniform)
    as (_ & _ & _ & Hbatches).
  assert (Hdistinct : NoDup (circular_buffer.contents (storage abcde4)))
    by (apply (bool_decide_unpack _); vm_compute; reflexivity).
  split; apply (Hbatches Hdistinct); try reflexivity;
    apply Forall_forall; repeat constructor;
    apply (bool_decide_unpack _); vm_compute; reflexivity.
Defined.

Lemma add_fn_sequence_window_witness :
  size_fn abcde4 = 4 ∧
  circular_buffer.contents (storage abcde4) = ["B"; "C"; "D"; "E"] ∧
  "A" ∉ circular_buffer.data (storage abcde4).
Proof.
  destruct (add_fn_sequence_window lcg_randint 4 "proto"
              ["A"; "B"; "C"; "D"; "E"] ltac:(lia) lcg_randint_contract
              NoDup_abcde) as [_ Hover].
  destruct (Hover ltac:(simpl; lia)) as (Hsize & Hcontents & Habsent & _).
  split; [exact Hsize |]. split; [exact Hcontents |].
  apply (Habsent "A"). simpl. apply list_elem_of_here.
Defined.

Lemma add_batch_fn_empty_batch_marks_full_witness :
  size_fn empty3 = 0 ∧
  ∃ state',
    add_batch_fn (item_tree := tuple_items) empty3 [] = Returns state' ∧
    circular_buffer.full (storage state') = true ∧
    size_fn state' = 3 ∧
    circular_buffer.data (storage state') = circular_buffer.data (storage empty3).
Proof.
  destruct (add_batch_fn_empty_batch_marks_full (item_tree := tuple_items) empty3)
    as (Hsize & Hreturns & Hfull).
  - split; [by vm_compute | reflexivity].
  - reflexivity.
  - reflexivity.
  - split; [exact Hsize |].
    destruct (Hreturns 0 eq_refl eq_refl) as [state' Hstate'].
    exists state'. split; [exact Hstate' |]. exact (Hfull state' Hstate').
Defined.

(** C2. The cursors after [add_batch_fn], at a batch that is one bare
    array: two items of shape [(3,)] inserted into the empty buffer of four
    slots.  Line 48 reads [batch[0].shape[0]], which for this batch is the
    first dimension of an item, 3, so [head' = 3], where the number of
    items gives [(0 + 2) mod 4 = 2].  [tail'] and [full'] are as computed
    from [head']. *)
Theorem add_batch_fn_cursors_bare_array :
  let state := init_fn 4 "proto" in
  let batch := ["a"; "b"] in
  ∃ state',
    add_batch_fn (item_tree := bare_items) state batch = Returns state' ∧
    circular_buffer.head (storage state') = 3 ∧
    (circular_buffer.head (storage state) + Z.of_nat (length batch))
      mod circular_buffer.max_size (storage state) = 2 ∧
    circular_buffer.tail (storage state') = 0 ∧
    circular_buffer.full (storage state') = false ∧
    size_fn state' = 3.
Proof. eexists. repeat split; reflexivity. Qed.

(** * Further properties of the transitions *)

Section transitions.
Context {Item : Type} `{!Inhabited Item} {item_tree : PyTree Item}.
Context {PRNGKey : Type}.
Variable randint : PRNGKey → Z → Z → nat → list Z.

Implicit Types (state : @UniformReplayBufferState Item).
Implicit Types (buffer : circular_buffer.CircularBuffer Item).
Implicit Types (item item_prototype : Item) (batch items : list Item).
Implicit Types (f g : Item → Item).

(** ** Helper facts on the storage *)

Lemma state_eq state1 state2 :
  circular_buffer.data (storage state1) = circular_buffer.data (storage state2) →
  circular_buffer.head (storage state1) = circular_buffer.head (storage state2) →
  circular_buffer.tail (storage state1) = circular_buffer.tail (storage state2) →
  circular_buffer.full (storage state1) = circular_buffer.full (storage state2) →
  state1 = state2.
Proof.
  destruct state1 as [[d1 h1 t1 f1]], state2 as [[d2 h2 t2 f2]]; simpl.
  by intros -> -> -> ->.
Qed.

Lemma wf_size_bounds buffer :
  circular_buffer.wf buffer →
  0 ≤ circular_buffer.size buffer ≤ circular_buffer.max_size buffer.
Proof.
  intros [Hhead Htail]. unfold circular_buffer.size.
  pose proof (Z.mod_pos_bound
    (circular_buffer.head buffer - circular_buffer.tail buffer)
    (circular_buffer.max_size buffer) ltac:(lia)).
  destruct (circular_buffer.full buffer); lia.
Qed.

Lemma wf_size_zero buffer :
  circular_buffer.wf buffer →
  circular_buffer.size buffer = 0 ↔
  circular_buffer.full buffer = false ∧
  circular_buffer.head buffer = circular_buffer.tail buffer.
Proof.
  intros [Hhead Htail]. unfold circular_buffer.size.
  destruct (circular_buffer.full buffer).
  - split; [lia | intros [? _]; discriminate].
  - split.
    + intros Hsize. split; [reflexivity |].
      apply (mod_eq_close (circular_buffer.max_size buffer)); [lia | | lia].
      rewrite (Z.mod_small (circular_buffer.tail buffer)) by lia.
      rewrite (Z.mod_small (circular_buffer.head buffer)) by lia.
      rewrite Z.mod_small in Hsize; [lia |].
      pose proof (Z.mod_pos_bound
        (circular_buffer.head buffer - circular_buffer.tail buffer)
        (circular_buffer.max_size buffer) ltac:(lia)).
      destruct (decide (circular_buffer.tail buffer ≤ circular_buffer.head buffer));
        [lia |].
      exfalso.
      replace (circular_buffer.head buffer - circular_buffer.tail buffer)
        with ((circular_buffer.head buffer - circular_buffer.tail buffer
               + circular_buffer.max_size buffer)
              + (-1) * circular_buffer.max_size buffer) in Hsize by lia.
      rewrite Z.mod_add, Z.mod_small in Hsize by lia. lia.
    + intros [_ ->]. rewrite Z.sub_diag. apply Z.mod_0_l. lia.
Qed.

Lemma fmap_set_pytree_batch_items f (data : list Item) index batch :
  f <$> utils.set_pytree_batch_items data index batch =
  utils.set_pytree_batch_items (f <$> data) index (f <$> batch).
Proof.
  revert data index. induction batch as [|item rest IH]; intros data index.
  - reflexivity.
  - simpl. rewrite IH. unfold utils.set_pytree_batch_item.
    by rewrite list_fmap_insert, length_fmap.
Qed.

(** ** Update composes, and commutes with the other operations *)

(** X1. Two updates in a row are one update by the composed
    transformation. *)
Theorem update_fn_compose state f g :
  update_fn (update_fn state f) g = update_fn state (g ∘ f).
Proof.
  apply state_eq; try reflexivity. simpl. unfold vmap.
  symmetry. apply (list_fmap_compose f g).
Qed.

(** X2. In a storage with at least one slot, updating and then sampling
    gives the transformed items of the sample of the input state, and the
    same failure when the buffer is empty; the size is unchanged. *)
Theorem update_fn_then_sample_fn state f (rng : PRNGKey) batch_size :
  0 < circular_buffer.max_size (storage state) →
  size_fn (update_fn state f) = size_fn state ∧
  sample_fn randint (update_fn state f) rng batch_size =
    fmap (M:=result) (fmap (M:=list) f)
      (sample_fn randint state rng batch_size).
Proof.
  intros Hm.
  assert (Hsize : size_fn (update_fn state f) = size_fn state).
  { unfold size_fn, circular_buffer.size, circular_buffer.max_size. simpl.
    unfold vmap. by rewrite length_map. }
  split; [exact Hsize |].
  unfold sample_fn. rewrite !uniform_sample_unfold.
  fold (size_fn (update_fn state f)) (size_fn state). rewrite Hsize.
  destruct (0 <? size_fn state); [| reflexivity].
  simpl. f_equal. rewrite <- list_fmap_compose.
  apply list_fmap_ext. intros _ i _. simpl.
  unfold circular_buffer.get_at_index, utils.get_pytree_batch_item,
    circular_buffer.max_size. simpl. unfold vmap. rewrite length_map.
  apply (list_lookup_total_fmap f).
  unfold circular_buffer.max_size in Hm. by apply slot_in_range.
Qed.

Lemma batch_0_shape_0_fmap f batch :
  batch_0_shape_0 (f <$> batch) = batch_0_shape_0 batch.
Proof. unfold batch_0_shape_0. by rewrite length_fmap. Qed.

(** X3. Updating after an insertion is inserting the transformed items
    after the update, for [add_fn] and for [add_batch_fn]; when
    [add_batch_fn] raises on the batch it raises the same exception on the
    transformed batch. *)
Theorem update_fn_after_insert state f item batch :
  update_fn (add_fn state item) f = add_fn (update_fn state f) (f item) ∧
  (fun state' => update_fn state' f) <$> add_batch_fn state batch =
    add_batch_fn (update_fn state f) (f <$> batch).
Proof.
  split.
  - apply state_eq; simpl;
      unfold vmap, circular_buffer.max_size; simpl;
      unfold vmap; rewrite ?length_map, ?length_fmap; try reflexivity.
    unfold utils.set_pytree_batch_item. apply (list_fmap_insert f).
  - rewrite !add_batch_fn_unfold, batch_0_shape_0_fmap.
    assert (Hcap : circular_buffer.max_size (storage (update_fn state f)) =
                   circular_buffer.max_size (storage state)).
    { unfold circular_buffer.max_size. simpl. unfold vmap. by rewrite length_map. }
    rewrite Hcap.
    change (circular_buffer.head (storage (update_fn state f)))
      with (circular_buffer.head (storage state)).
    destruct (batch_0_shape_0 batch) as [n | e]; [| reflexivity]. simpl.
    destruct (int32_of_int n) as [n' | e]; [| reflexivity]. simpl.
    destruct (int32_of_int _) as [m | e]; [| reflexivity]. simpl.
    f_equal.
    apply state_eq; simpl;
      unfold vmap, circular_buffer.max_size; simpl;
      unfold vmap; rewrite ?length_map, ?length_fmap; try reflexivity.
    apply fmap_set_pytree_batch_items.
Qed.

(** ** Sampling: when it fails, and what it can see *)

(** X4. On a storage that satisfies the invariant, [sample_fn] fails with
    the empty-buffer error exactly when [full] is false and [head = tail];
    in every other case it returns a batch, the items at the offsets
    drawn. *)
Theorem sample_fn_fails_iff_cursors_meet state (rng : PRNGKey) batch_size :
  circular_buffer.wf (storage state) →
  (sample_fn randint state rng batch_size = Err EmptyBufferError ↔
   circular_buffer.full (storage state) = false ∧
   circular_buffer.head (storage state) = circular_buffer.tail (storage state)) ∧
  (¬ (circular_buffer.full (storage state) = false ∧
      circular_buffer.head (storage state) = circular_buffer.tail (storage state)) →
   sample_fn randint state rng batch_size =
     Ok (circular_buffer.get_at_index (storage state) <$>
           randint rng 0 (size_fn state) batch_size)).
Proof.
  intros Hwf. rewrite <- (wf_size_zero _ Hwf).
  pose proof (wf_size_bounds _ Hwf) as Hbounds.
  unfold sample_fn, size_fn. rewrite uniform_sample_unfold.
  destruct (Z.ltb_spec 0 (circular_buffer.size (storage state))).
  - split; [split; [discriminate | lia] | reflexivity].
  - split; [split; [lia | reflexivity] | lia].
Qed.

(** X5. [sample_fn] sees a state only through its logical contents: two
    states that satisfy the invariant and have the same logical contents
    give the same result for every key and batch size, whatever their
    cursors and their slots outside the logical range. *)
Theorem sample_fn_sees_only_contents state1 state2 (rng : PRNGKey) batch_size :
  randint_contract randint →
  circular_buffer.wf (storage state1) →
  circular_buffer.wf (storage state2) →
  circular_buffer.contents (storage state1) =
    circular_buffer.contents (storage state2) →
  sample_fn randint state1 rng batch_size =
    sample_fn randint state2 rng batch_size.
Proof.
  intros Hcontract Hwf1 Hwf2 Hcontents.
  pose proof (wf_size_bounds _ Hwf1). pose proof (wf_size_bounds _ Hwf2).
  assert (Hsize : circular_buffer.size (storage state1) =
                  circular_buffer.size (storage state2)).
  { pose proof (f_equal length Hcontents) as Hlen.
    rewrite !length_contents in Hlen. lia. }
  unfold sample_fn. rewrite !uniform_sample_unfold, <- Hsize.
  destruct (Z.ltb_spec 0 (circular_buffer.size (storage state1))) as [Hpos |];
    [| reflexivity].
  f_equal.
  destruct (Hcontract rng 0 (circular_buffer.size (storage state1)) batch_size)
    as [_ Hrange].
  specialize (Hrange Hpos).
  apply list_fmap_ext. intros k i Hk.
  rewrite Forall_forall in Hrange.
  specialize (Hrange i (list_elem_of_lookup_2 _ _ _ Hk)).
  pose proof (contents_lookup (storage state1) i Hrange) as H1.
  pose proof (contents_lookup (storage state2) i ltac:(lia)) as H2.
  rewrite Hcontents in H1. congruence.
Qed.

(** ** The invariant of the states a caller can reach *)

(** X6. Every state reached from [init_fn] by [add_fn], [add_batch_fn] and
    [update_fn], for a capacity [max_size > 0], keeps the capacity, has both
    cursors in [[0, max_size)], has [head = tail] whenever it is full, and
    has a size between 0 and [max_size]. *)
Theorem reachable_invariant (max_size : nat) state :
  (0 < max_size)%nat →
  reachable max_size state →
  circular_buffer.max_size (storage state) = Z.of_nat max_size ∧
  circular_buffer.wf (storage state) ∧
  (circular_buffer.full (storage state) = true →
     circular_buffer.head (storage state) = circular_buffer.tail (storage state)) ∧
  0 ≤ size_fn state ≤ Z.of_nat max_size.
Proof.
  intros Hm Hreach.
  assert (Hinv : circular_buffer.max_size (storage state) = Z.of_nat max_size ∧
                 circular_buffer.wf (storage state) ∧
                 (circular_buffer.full (storage state) = true →
                    circular_buffer.head (storage state) =
                    circular_buffer.tail (storage state))).
  { induction Hreach as [item_prototype | state item _ (Hcap & Hwf & Hfull)
                         | state batch state' _ (Hcap & Hwf & Hfull) Hreturns
                         | state f _ (Hcap & Hwf & Hfull)].
    - split; [| split].
      + unfold circular_buffer.max_size. simpl. by rewrite length_replicate.
      + by apply wf_init_fn.
      + discriminate.
    - split; [| split].
      + rewrite <- Hcap. unfold circular_buffer.max_size. simpl.
        unfold utils.set_pytree_batch_item. by rewrite length_insert.
      + by apply wf_add_fn.
      + simpl. apply Z.eqb_eq.
    - apply add_batch_fn_returns in Hreturns as (n & _ & _ & _ & ->).
      split; [| split].
      + rewrite <- Hcap. unfold circular_buffer.max_size. simpl.
        by rewrite length_set_pytree_batch_items.
      + by apply wf_batch_inserted.
      + simpl. apply Z.eqb_eq.
    - split; [| split].
      + rewrite <- Hcap. unfold circular_buffer.max_size. simpl.
        unfold vmap. by rewrite length_map.
      + by apply wf_update_fn.
      + exact Hfull. }
  destruct Hinv as (Hcap & Hwf & Hfull).
  split; [exact Hcap |]. split; [exact Hwf |]. split; [exact Hfull |].
  rewrite <- Hcap. by apply wf_size_bounds.
Qed.

(** ** Batch insertion: the size it leaves *)

Lemma batch_inserted_size_not_full state batch (n : Z) :
  circular_buffer.wf (storage state) →
  circular_buffer.full (storage state) = false →
  size_fn (batch_inserted state batch n) =
    (if (size_fn state + n)
          mod circular_buffer.max_size (storage state) =? 0
     then circular_buffer.max_size (storage state)
     else (size_fn state + n)
            mod circular_buffer.max_size (storage state)).
Proof.
  intros [Hhead Htail] Hfull.
  unfold size_fn, circular_buffer.size. simpl. rewrite Hfull.
  unfold circular_buffer.max_size. simpl.
  rewrite length_set_pytree_batch_items.
  fold (circular_buffer.max_size (storage state)).
  set (m := circular_buffer.max_size (storage state)) in *.
  set (h := circular_buffer.head (storage state)) in *.
  set (t := circular_buffer.tail (storage state)) in *.
  rewrite Z.add_mod_idemp_l by lia.
  assert (Hr : ((h + n) mod m - t) mod m = (h - t + n) mod m).
  { rewrite Zminus_mod_idemp_l. f_equal. lia. }
  pose proof (Z.mod_pos_bound (h + n) m ltac:(lia)) as Hnh.
  destruct (Z.eqb_spec ((h + n) mod m) t) as [Heq | Hne].
  - rewrite Heq, Z.sub_diag, Z.mod_0_l in Hr by lia.
    rewrite <- Hr. reflexivity.
  - rewrite Hr. destruct (Z.eqb_spec ((h - t + n) mod m) 0) as [Hz |]; [| done].
    exfalso. apply Hne. rewrite Hz in Hr.
    assert ((h + n) mod m - t = 0); [| lia].
    apply (mod_eq_close m); [lia | | lia].
    by rewrite Hr, Z.mod_0_l by lia.
Qed.

Lemma batch_inserted_size_full state batch (n : Z) :
  circular_buffer.wf (storage state) →
  circular_buffer.full (storage state) = true →
  size_fn (batch_inserted state batch n) =
    (if (circular_buffer.head (storage state) + n)
          mod circular_buffer.max_size (storage state) =? 0
     then circular_buffer.max_size (storage state)
     else (circular_buffer.head (storage state) + n)
            mod circular_buffer.max_size (storage state)).
Proof.
  intros [Hhead Htail] Hfull.
  unfold size_fn, circular_buffer.size. simpl. rewrite Hfull.
  unfold circular_buffer.max_size. simpl.
  rewrite length_set_pytree_batch_items.
  fold (circular_buffer.max_size (storage state)).
  destruct (_ =? 0); [reflexivity |].
  rewrite Z.sub_0_r. apply Z.mod_mod. lia.
Qed.

(** X7. The size after [add_batch_fn], on a storage that satisfies the
    invariant, is [r] or, if [r = 0], [max_size], where [n] is the value
    read by [batch[0].shape[0]] and [r = (size + n) mod max_size] when the
    input was not full, [r = (head + n) mod max_size] when it was full;
    [max_size] and [head + n] are taken to fit [int32].  In particular a
    batch inserted into a full buffer leaves fewer than [max_size] items
    unless [head + n] is a multiple of [max_size]. *)
Theorem add_batch_fn_size state batch (n : Z) :
  let m := circular_buffer.max_size (storage state) in
  let r := (if circular_buffer.full (storage state)
            then circular_buffer.head (storage state) + n
            else size_fn state + n) mod m in
  circular_buffer.wf (storage state) →
  batch_0_shape_0 batch = Returns n →
  m < 2 ^ 31 →
  circular_buffer.head (storage state) + n < 2 ^ 31 →
  ∃ state', add_batch_fn state batch = Returns state' ∧
    size_fn state' = (if r =? 0 then m else r) ∧
    (circular_buffer.full (storage state) = true → r ≠ 0 →
       size_fn state' < size_fn state).
Proof.
  intros m r Hwf Hn Hm32 Hsum. subst m r.
  exists (batch_inserted state batch n).
  pose proof (batch_0_shape_0_nonneg _ _ Hn).
  split.
  { destruct Hwf as [Hhead _]. apply add_batch_fn_returns_exact; [done | lia..]. }
  destruct (circular_buffer.full (storage state)) eqn:Hfull.
  - rewrite (batch_inserted_size_full _ _ _ Hwf Hfull). split; [reflexivity |].
    intros _ Hr. apply Z.eqb_neq in Hr. rewrite Hr.
    unfold size_fn, circular_buffer.size. rewrite Hfull.
    destruct Hwf as [Hhead _].
    apply Z.mod_pos_bound. lia.
  - rewrite (batch_inserted_size_not_full _ _ _ Hwf Hfull).
    split; [reflexivity | discriminate].
Qed.

(** ** Batch insertion: the empty batch and the single item *)

(** X10. On a storage that satisfies the invariant, is not full and has
    [head ≠ tail], [add_batch_fn] with a batch of length zero returns the
    state unchanged: that state is returned whenever the read
    [batch[0].shape[0]] evaluates on the empty batch and [max_size] fits
    [int32], and no other state is ever returned. *)
Theorem add_batch_fn_empty_batch_noop state :
  circular_buffer.wf (storage state) →
  circular_buffer.full (storage state) = false →
  circular_buffer.head (storage state) ≠ circular_buffer.tail (storage state) →
  (∀ n, batch_0_shape_0 ([] : list Item) = Returns n →
     circular_buffer.max_size (storage state) < 2 ^ 31 →
     add_batch_fn state [] = Returns state) ∧
  (∀ state', add_batch_fn state [] = Returns state' → state' = state).
Proof.
  intros [Hhead Htail] Hfull Hne.
  assert (Hnoop : batch_inserted state [] 0 = state).
  { apply state_eq; simpl; rewrite ?Hfull, ?Z.add_0_r, ?Z.mod_small by lia;
      try reflexivity.
    by apply Z.eqb_neq. }
  split.
  - intros n Hn Hm32. pose proof (batch_0_shape_0_empty _ Hn) as ->.
    rewrite <- Hnoop at 2.
    apply add_batch_fn_returns_exact; [done | lia..].
  - intros state' (n & Hn & _ & Hm32 & ->)%add_batch_fn_returns.
    apply batch_0_shape_0_empty in Hn as ->.
    by rewrite Z.add_0_r, wrap32_small, Z.sub_diag by lia.
Qed.

(** X12. On a full storage that satisfies the invariant, inserting one item
    through [add_batch_fn], with [batch[0].shape[0]] reading 1, gives the
    state of [add_fn] exactly when [tail = max_size - 1]: the data and
    [head] agree, but the batch insertion sets [tail] to 0 where [add_fn]
    advances it by one.  [max_size] is taken to fit [int32]. *)
Theorem add_batch_fn_single_vs_add_fn_full state item :
  circular_buffer.wf (storage state) →
  circular_buffer.full (storage state) = true →
  batch_0_shape_0 [item] = Returns 1 →
  circular_buffer.max_size (storage state) < 2 ^ 31 →
  ∃ state', add_batch_fn state [item] = Returns state' ∧
    (circular_buffer.data (storage state') =
       circular_buffer.data (storage (add_fn state item)) ∧
     circular_buffer.head (storage state') =
       circular_buffer.head (storage (add_fn state item))) ∧
    (state' = add_fn state item ↔
     circular_buffer.tail (storage state) =
       circular_buffer.max_size (storage state) - 1).
Proof.
  intros [Hhead Htail] Hfull Hn Hm32.
  exists (batch_inserted state [item] 1).
  split; [apply add_batch_fn_returns_exact; [done | lia..] |].
  assert (Hdata : circular_buffer.data (storage (batch_inserted state [item] 1)) =
                  circular_buffer.data (storage (add_fn state item))).
  { simpl. fold (circular_buffer.max_size (storage state)).
    by rewrite Z.mod_small by lia. }
  split; [split; [exact Hdata | reflexivity] |].
  set (m := circular_buffer.max_size (storage state)) in *.
  set (t := circular_buffer.tail (storage state)) in *.
  split.
  - intros Heq. apply (f_equal (fun s => circular_buffer.tail (storage s))) in Heq.
    simpl in Heq. rewrite Hfull in Heq. fold m t in Heq.
    destruct (decide (t + 1 < m)) as [Hlt |]; [| lia].
    rewrite Z.mod_small in Heq by lia. lia.
  - intros Ht.
    assert (Hwrap : (t + 1) mod m = 0).
    { replace (t + 1) with m by lia. apply Z.mod_same. lia. }
    apply state_eq; [exact Hdata | reflexivity | |];
      simpl; rewrite Hfull; fold m t; by rewrite Hwrap.
Qed.

(** ** Batch insertion when there is room *)

Lemma slot_of_offset (m h t j : Z) :
  0 < m → (t + ((h - t) mod m + j)) mod m = (h + j) mod m.
Proof.
  intros Hm.
  replace (t + ((h - t) mod m + j)) with ((h - t) mod m + (t + j)) by lia.
  rewrite Z.add_mod_idemp_l by lia. f_equal. lia.
Qed.

Lemma batch_inserted_size_room state batch :
  circular_buffer.wf (storage state) →
  circular_buffer.full (storage state) = false →
  batch ≠ [] →
  size_fn state + Z.of_nat (length batch) ≤
    circular_buffer.max_size (storage state) →
  size_fn (batch_inserted state batch (Z.of_nat (length batch))) = size_fn state + Z.of_nat (length batch).
Proof.
  intros Hwf Hfull Hbatch Hroom.
  rewrite (batch_inserted_size_not_full _ _ _ Hwf Hfull).
  pose proof (wf_size_bounds _ Hwf) as Hbounds. fold (size_fn state) in Hbounds.
  assert (0 < Z.of_nat (length batch)) by (destruct batch; [done | simpl; lia]).
  destruct (decide (size_fn state + Z.of_nat (length batch) =
                    circular_buffer.max_size (storage state))) as [-> | Hlt].
  - rewrite Z.mod_same by lia. reflexivity.
  - rewrite Z.mod_small by lia.
    destruct (Z.eqb_spec (size_fn state + Z.of_nat (length batch)) 0); lia.
Qed.

Lemma batch_inserted_room state batch :
  circular_buffer.wf (storage state) →
  circular_buffer.full (storage state) = false →
  batch ≠ [] →
  size_fn state + Z.of_nat (length batch) ≤
    circular_buffer.max_size (storage state) →
  size_fn (batch_inserted state batch (Z.of_nat (length batch))) = size_fn state + Z.of_nat (length batch) ∧
  circular_buffer.contents (storage (batch_inserted state batch (Z.of_nat (length batch)))) =
    circular_buffer.contents (storage state) ++ batch.
Proof.
  intros Hwf Hfull Hbatch Hroom.
  pose proof (batch_inserted_size_room _ _ Hwf Hfull Hbatch Hroom) as Hsize.
  split; [exact Hsize |].
  pose proof (wf_size_bounds _ Hwf) as Hbounds. fold (size_fn state) in Hbounds.
  destruct Hwf as [Hhead Htail].
  assert (Hlen : (0 < length (circular_buffer.data (storage state)))%nat)
    by (unfold circular_buffer.max_size in Hhead; lia).
  apply list_eq. intros i.
  destruct (decide (Z.of_nat i < size_fn state + Z.of_nat (length batch)))
    as [Hi | Hi].
  2: { rewrite !(proj2 (lookup_ge_None _ _)); [done | |].
       - rewrite length_app, length_contents. fold (size_fn state). lia.
       - rewrite length_contents. fold (size_fn (batch_inserted state batch (Z.of_nat (length batch)))). lia. }
  pose proof (contents_lookup (storage (batch_inserted state batch (Z.of_nat (length batch)))) (Z.of_nat i))
    as Hnew.
  fold (size_fn (batch_inserted state batch (Z.of_nat (length batch)))) in Hnew.
  rewrite Nat2Z.id in Hnew. rewrite Hnew by lia. clear Hnew.
  unfold circular_buffer.get_at_index, utils.get_pytree_batch_item,
    circular_buffer.max_size. simpl.
  rewrite Hfull, length_set_pytree_batch_items.
  fold (circular_buffer.max_size (storage state)).
  set (m := circular_buffer.max_size (storage state)) in *.
  set (h := circular_buffer.head (storage state)) in *.
  set (t := circular_buffer.tail (storage state)) in *.
  assert (Hs : size_fn state = (h - t) mod m).
  { unfold size_fn, circular_buffer.size. by rewrite Hfull. }
  rewrite list_lookup_total_alt.
  destruct (decide (Z.of_nat i < size_fn state)) as [Hold | Hnew].
  - (* an item of the old contents: its slot is not written *)
    rewrite lookup_app_l by (rewrite length_contents; fold (size_fn state); lia).
    pose proof (contents_lookup (storage state) (Z.of_nat i)
                  ltac:(fold (size_fn state); lia)) as Hc.
    rewrite Nat2Z.id in Hc. rewrite Hc.
    unfold circular_buffer.get_at_index, utils.get_pytree_batch_item.
    fold m t. rewrite list_lookup_total_alt.
    rewrite set_pytree_batch_items_other; [| done |].
    + destruct (circular_buffer.data (storage state)
                  !! Z.to_nat ((t + Z.of_nat i) mod m)) eqn:Hslot; [done |].
      exfalso. apply lookup_ge_None in Hslot.
      pose proof (Z.mod_pos_bound (t + Z.of_nat i) m ltac:(lia)).
      unfold m, circular_buffer.max_size in *. lia.
    + intros j Hj. fold (circular_buffer.max_size (storage state)). fold m.
      pose proof (Z.mod_pos_bound (t + Z.of_nat i) m ltac:(lia)).
      rewrite Z2Nat.id by lia.
      rewrite <- (slot_of_offset m h t) by lia. rewrite <- Hs.
      intros Heq. apply mod_eq_close in Heq; lia.
  - (* an item of the batch *)
    rewrite lookup_app_r by (rewrite length_contents; fold (size_fn state); lia).
    rewrite length_contents. fold (size_fn state).
    set (j := (i - Z.to_nat (size_fn state))%nat).
    destruct (batch !! j) as [item |] eqn:Hitem.
    2: { apply lookup_ge_None in Hitem. unfold j in Hitem. lia. }
    replace ((t + Z.of_nat i) mod m) with ((h + Z.of_nat j) mod m).
    2: { rewrite <- (slot_of_offset m h t) by lia. rewrite <- Hs.
         f_equal. unfold j. lia. }
    unfold m, circular_buffer.max_size.
    rewrite (set_pytree_batch_items_written _ _ _ j item); [done | done | done |].
    intros j' Hj'. fold (circular_buffer.max_size (storage state)). fold m.
    intros Heq. apply mod_eq_close in Heq; lia.
Qed.

(** X8. When the buffer is not full, [batch[0].shape[0]] reads the number
    [N] of items of the batch, and the non-empty batch fits in the free
    room ([size + N <= max_size], with [max_size <= 2^30] so that nothing
    leaves [int32]), [add_batch_fn] appends it: the size grows by [N] and
    the logical contents are the old ones followed by the batch, in
    order. *)
Theorem add_batch_fn_appends state batch :
  circular_buffer.wf (storage state) →
  circular_buffer.full (storage state) = false →
  batch ≠ [] →
  size_fn state + Z.of_nat (length batch) ≤
    circular_buffer.max_size (storage state) →
  batch_0_shape_0 batch = Returns (Z.of_nat (length batch)) →
  circular_buffer.max_size (storage state) ≤ 2 ^ 30 →
  ∃ state', add_batch_fn state batch = Returns state' ∧
    size_fn state' = size_fn state + Z.of_nat (length batch) ∧
    circular_buffer.contents (storage state') =
      circular_buffer.contents (storage state) ++ batch.
Proof.
  intros Hwf Hfull Hbatch Hroom Hn Hm30. eexists.
  split; [| by apply batch_inserted_room].
  pose proof (wf_size_bounds _ Hwf) as Hbounds. fold (size_fn state) in Hbounds.
  destruct Hwf as [Hhead _].
  apply add_batch_fn_returns_exact; [done | lia..].
Qed.

Lemma set_pytree_batch_items_congr (data : list Item) index1 index2 batch :
  index1 mod Z.of_nat (length data) = index2 mod Z.of_nat (length data) →
  utils.set_pytree_batch_items data index1 batch =
  utils.set_pytree_batch_items data index2 batch.
Proof.
  revert data index1 index2.
  induction batch as [|item rest IH]; intros data index1 index2 Heq; [done |].
  simpl. rewrite Heq. apply IH.
  unfold utils.set_pytree_batch_item. rewrite length_insert.
  destruct (decide (length data = 0%nat)) as [Hz | Hnz].
  - rewrite Hz in *. simpl in *. rewrite !Z.mod_0_r in *. lia.
  - rewrite <- (Z.add_mod_idemp_l index1), <- (Z.add_mod_idemp_l index2) by lia.
    by rewrite Heq.
Qed.

Lemma batch_inserted_single_not_full state item :
  circular_buffer.wf (storage state) →
  circular_buffer.full (storage state) = false →
  batch_inserted state [item] 1 = add_fn state item.
Proof.
  intros [Hhead Htail] Hfull.
  apply state_eq; simpl; rewrite ?Hfull; try reflexivity.
  fold (circular_buffer.max_size (storage state)).
  by rewrite Z.mod_small by lia.
Qed.

Lemma add_all_is_batch_inserted batch :
  ∀ state,
    circular_buffer.wf (storage state) →
    circular_buffer.full (storage state) = false →
    batch ≠ [] →
    size_fn state + Z.of_nat (length batch) ≤
      circular_buffer.max_size (storage state) →
    add_all state batch = batch_inserted state batch (Z.of_nat (length batch)).
Proof.
  induction batch as [|item rest IH]; intros state Hwf Hfull Hne Hroom; [done |].
  destruct rest as [|item' rest].
  { unfold add_all. simpl. symmetry. by apply batch_inserted_single_not_full. }
  pose proof (wf_size_bounds _ Hwf) as Hbounds. fold (size_fn state) in Hbounds.
  pose proof (wf_add_fn _ item Hwf) as Hwf1.
  assert (Hsize1 : size_fn (add_fn state item) = size_fn state + 1).
  { rewrite <- (batch_inserted_single_not_full _ _ Hwf Hfull).
    change (batch_inserted state [item] 1)
      with (batch_inserted state [item] (Z.of_nat (length [item]))).
    rewrite (batch_inserted_size_room state [item]); [| done | done | done |];
      cbn [length] in *; lia. }
  assert (Hcap1 : circular_buffer.max_size (storage (add_fn state item)) =
                  circular_buffer.max_size (storage state)).
  { unfold circular_buffer.max_size. simpl.
    unfold utils.set_pytree_batch_item. by rewrite length_insert. }
  assert (Hfull1 : circular_buffer.full (storage (add_fn state item)) = false).
  { destruct (circular_buffer.full (storage (add_fn state item))) eqn:Hf; [| done].
    exfalso.
    assert (Hs : size_fn (add_fn state item) =
                 circular_buffer.max_size (storage (add_fn state item)))
      by (unfold size_fn, circular_buffer.size; by rewrite Hf).
    rewrite Hcap1, Hsize1 in Hs. cbn [length] in Hroom. lia. }
  change (add_all state (item :: item' :: rest))
    with (add_all (add_fn state item) (item' :: rest)).
  rewrite IH; [| done | done | done |
               rewrite Hsize1, Hcap1; cbn [length] in *; lia].
  destruct Hwf as [Hhead Htail].
  assert (Hnew_head :
    circular_buffer.head (storage (batch_inserted (add_fn state item) (item' :: rest)
        (Z.of_nat (length (item' :: rest)))))
    = circular_buffer.head (storage (batch_inserted state (item :: item' :: rest)
        (Z.of_nat (length (item :: item' :: rest)))))).
  { change (circular_buffer.head (storage (batch_inserted (add_fn state item) (item' :: rest)
        (Z.of_nat (length (item' :: rest))))))
      with ((circular_buffer.head (storage (add_fn state item))
             + Z.of_nat (length (item' :: rest)))
            mod circular_buffer.max_size (storage (add_fn state item))).
    rewrite Hcap1. simpl circular_buffer.head at 1.
    rewrite Z.add_mod_idemp_l by lia.
    simpl. f_equal. lia. }
  assert (Hnew_tail :
    circular_buffer.tail (storage (batch_inserted (add_fn state item) (item' :: rest)
        (Z.of_nat (length (item' :: rest)))))
    = circular_buffer.tail (storage (batch_inserted state (item :: item' :: rest)
        (Z.of_nat (length (item :: item' :: rest)))))).
  { change (circular_buffer.tail (storage (batch_inserted (add_fn state item) (item' :: rest)
        (Z.of_nat (length (item' :: rest))))))
      with (if circular_buffer.full (storage (add_fn state item)) then 0
            else circular_buffer.tail (storage (add_fn state item))).
    rewrite Hfull1. simpl. by rewrite Hfull. }
  apply state_eq; [| exact Hnew_head | exact Hnew_tail |].
  - change (circular_buffer.data (storage (batch_inserted (add_fn state item) (item' :: rest)
        (Z.of_nat (length (item' :: rest))))))
      with (utils.set_pytree_batch_items
              (utils.set_pytree_batch_item (circular_buffer.data (storage state))
                 (circular_buffer.head (storage state)) item)
              ((circular_buffer.head (storage state) + 1)
                 mod circular_buffer.max_size (storage state))
              (item' :: rest)).
    change (circular_buffer.data (storage (batch_inserted state (item :: item' :: rest)
        (Z.of_nat (length (item :: item' :: rest))))))
      with (utils.set_pytree_batch_items
              (utils.set_pytree_batch_item (circular_buffer.data (storage state))
                 (circular_buffer.head (storage state)
                    mod circular_buffer.max_size (storage state)) item)
              (circular_buffer.head (storage state) + 1)
              (item' :: rest)).
    rewrite (Z.mod_small (circular_buffer.head (storage state))) by lia.
    apply set_pytree_batch_items_congr.
    unfold utils.set_pytree_batch_item. rewrite length_insert.
    fold (circular_buffer.max_size (storage state)).
    apply Z.mod_mod. lia.
  - change (circular_buffer.full (storage (batch_inserted (add_fn state item) (item' :: rest)
        (Z.of_nat (length (item' :: rest))))))
      with (circular_buffer.head (storage (batch_inserted (add_fn state item) (item' :: rest)
        (Z.of_nat (length (item' :: rest)))))
            =? circular_buffer.tail (storage (batch_inserted (add_fn state item) (item' :: rest)
        (Z.of_nat (length (item' :: rest)))))).
    rewrite Hnew_head, Hnew_tail. reflexivity.
Qed.

(** X9. When the buffer is not full, [batch[0].shape[0]] reads the number
    of items of the batch, and the non-empty batch fits in the free room
    (with [max_size <= 2^30] so that nothing leaves [int32]), one
    [add_batch_fn] returns exactly the state of the sequence of [add_fn]
    calls on its items, in order. *)
Theorem add_batch_fn_is_sequence_of_add_fn state batch :
  circular_buffer.wf (storage state) →
  circular_buffer.full (storage state) = false →
  batch ≠ [] →
  size_fn state + Z.of_nat (length batch) ≤
    circular_buffer.max_size (storage state) →
  batch_0_shape_0 batch = Returns (Z.of_nat (length batch)) →
  circular_buffer.max_size (storage state) ≤ 2 ^ 30 →
  add_batch_fn state batch = Returns (add_all state batch).
Proof.
  intros Hwf Hfull Hbatch Hroom Hn Hm30.
  rewrite (add_all_is_batch_inserted batch state) by done.
  pose proof (wf_size_bounds _ Hwf) as Hbounds. fold (size_fn state) in Hbounds.
  destruct Hwf as [Hhead _].
  apply add_batch_fn_returns_exact; [done | lia..].
Qed.

(** ** Batch insertion: replacing the whole storage *)

Lemma set_pytree_batch_items_whole (data : list Item) batch :
  length batch = length data →
  utils.set_pytree_batch_items data 0 batch = batch.
Proof.
  intros Hlen. apply list_eq. intros i.
  destruct (batch !! i) as [item |] eqn:Hitem.
  - pose proof (lookup_lt_Some _ _ _ Hitem) as Hi.
    pose proof (set_pytree_batch_items_written data 0 batch i item
                  ltac:(lia) Hitem) as Hw.
    rewrite Z.add_0_l, Z.mod_small, Nat2Z.id in Hw by lia.
    apply Hw. intros j Hj.
    rewrite !Z.add_0_l, !Z.mod_small by lia. lia.
  - apply lookup_ge_None in Hitem. apply lookup_ge_None.
    rewrite length_set_pytree_batch_items. lia.
Qed.

(** X11. A batch of exactly [max_size] items, with [batch[0].shape[0]]
    reading that number ([max_size] fitting [int32]), inserted at
    [head = 0] into a storage that is full or has [tail = 0], replaces the
    whole storage: the data is the batch, both cursors are 0, the buffer is
    full and its logical contents are the batch, in order. *)
Theorem add_batch_fn_whole_storage state batch :
  0 < circular_buffer.max_size (storage state) < 2 ^ 31 →
  Z.of_nat (length batch) = circular_buffer.max_size (storage state) →
  circular_buffer.head (storage state) = 0 →
  circular_buffer.full (storage state) = true ∨
    circular_buffer.tail (storage state) = 0 →
  batch_0_shape_0 batch = Returns (Z.of_nat (length batch)) →
  ∃ state', add_batch_fn state batch = Returns state' ∧
    circular_buffer.data (storage state') = batch ∧
    circular_buffer.head (storage state') = 0 ∧
    circular_buffer.tail (storage state') = 0 ∧
    circular_buffer.full (storage state') = true ∧
    size_fn state' = circular_buffer.max_size (storage state) ∧
    circular_buffer.contents (storage state') = batch.
Proof.
  intros [Hm Hm32] Hlen Hhead Htail Hn.
  exists (batch_inserted state batch (Z.of_nat (length batch))).
  split; [apply add_batch_fn_returns_exact; [done | lia..] |].
  set (state' := batch_inserted state batch (Z.of_nat (length batch))).
  assert (Hdata : circular_buffer.data (storage state') = batch).
  { simpl. rewrite Hhead. apply set_pytree_batch_items_whole.
    unfold circular_buffer.max_size in Hlen. lia. }
  assert (Hh : circular_buffer.head (storage state') = 0).
  { simpl. rewrite Hhead, Z.add_0_l, Hlen. apply Z.mod_same. lia. }
  assert (Ht : circular_buffer.tail (storage state') = 0).
  { simpl. destruct Htail as [-> | Ht]; [done |].
    by destruct (circular_buffer.full (storage state)). }
  assert (Hf : circular_buffer.full (storage state') = true).
  { change (circular_buffer.full (storage state'))
      with (circular_buffer.head (storage state') =?
            circular_buffer.tail (storage state')).
    by rewrite Hh, Ht. }
  assert (Hcap : circular_buffer.max_size (storage state') =
                 circular_buffer.max_size (storage state)).
  { unfold circular_buffer.max_size. rewrite Hdata.
    unfold circular_buffer.max_size in Hlen. lia. }
  assert (Hsize : size_fn state' = circular_buffer.max_size (storage state)).
  { unfold size_fn, circular_buffer.size. by rewrite Hf. }
  repeat (split; [done |]).
  apply list_eq. intros i.
  destruct (batch !! i) as [item |] eqn:Hitem.
  - pose proof (lookup_lt_Some _ _ _ Hitem) as Hi.
    pose proof (contents_lookup (storage state') (Z.of_nat i)) as Hc.
    fold (size_fn state') in Hc. rewrite Nat2Z.id in Hc.
    rewrite Hc by lia. f_equal.
    unfold circular_buffer.get_at_index, utils.get_pytree_batch_item.
    rewrite Ht, Hcap, Hdata, Z.add_0_l, Z.mod_small, Nat2Z.id by lia.
    by apply list_lookup_total_correct.
  - apply lookup_ge_None in Hitem. apply lookup_ge_None.
    rewrite length_contents. fold (size_fn state'). lia.
Qed.

(** ** The empty buffer of [init_fn], and one step of [add_fn] *)

(** X13. For every capacity, zero included, the state of [init_fn] has
    [max_size] slots, size 0 and no logical contents, and [sample_fn] fails
    on it for every key and batch size. *)
Theorem init_fn_empty (max_size : nat) item_prototype (rng : PRNGKey) batch_size :
  let state := init_fn max_size item_prototype in
  circular_buffer.max_size (storage state) = Z.of_nat max_size ∧
  size_fn state = 0 ∧
  circular_buffer.contents (storage state) = [] ∧
  sample_fn randint state rng batch_size = Err EmptyBufferError.
Proof.
  intros state.
  assert (Hsize : circular_buffer.size (storage state) = 0) by reflexivity.
  split; [unfold circular_buffer.max_size; simpl; by rewrite length_replicate |].
  split; [exact Hsize |].
  split.
  - unfold circular_buffer.contents. by rewrite Hsize.
  - unfold sample_fn. rewrite uniform_sample_unfold. by rewrite Hsize.
Qed.

(** X14. One [add_fn] on a storage that satisfies the invariant: if it is
    not full the item is appended to the logical contents; if it is full
    (with [head = tail]) the oldest item is dropped and the new one
    appended, the size staying [max_size]. *)
Theorem add_fn_step state item :
  circular_buffer.wf (storage state) →
  (circular_buffer.full (storage state) = true →
     circular_buffer.head (storage state) = circular_buffer.tail (storage state)) →
  circular_buffer.contents (storage (add_fn state item)) =
    (if circular_buffer.full (storage state)
     then drop 1 (circular_buffer.contents (storage state))
     else circular_buffer.contents (storage state)) ++ [item] ∧
  size_fn (add_fn state item) =
    (if circular_buffer.full (storage state) then size_fn state
     else size_fn state + 1).
Proof.
  intros Hwf Hmeet.
  destruct (circular_buffer.full (storage state)) eqn:Hfull.
  2: { (* not full: the batch of one item *)
       pose proof (wf_size_bounds _ Hwf) as Hbounds.
       assert (size_fn state ≠ circular_buffer.max_size (storage state)).
       { unfold size_fn, circular_buffer.size. rewrite Hfull.
         destruct Hwf as [Hhead _].
         pose proof (Z.mod_pos_bound
           (circular_buffer.head (storage state) - circular_buffer.tail (storage state))
           (circular_buffer.max_size (storage state)) ltac:(lia)). lia. }
       rewrite <- (batch_inserted_single_not_full _ _ Hwf Hfull).
       destruct (batch_inserted_room state [item] Hwf Hfull) as [Hsize Hcontents];
         [done | fold (size_fn state) in Hbounds; simpl; lia |].
       split; [exact Hcontents | exact Hsize]. }
  specialize (Hmeet eq_refl). destruct Hwf as [Hhead Htail].
  assert (Hlen : (0 < length (circular_buffer.data (storage state)))%nat)
    by (unfold circular_buffer.max_size in Hhead; lia).
  assert (Hcap : circular_buffer.max_size (storage (add_fn state item)) =
                 circular_buffer.max_size (storage state)).
  { unfold circular_buffer.max_size. simpl.
    unfold utils.set_pytree_batch_item. by rewrite length_insert. }
  assert (Hfull' : circular_buffer.full (storage (add_fn state item)) = true).
  { simpl. rewrite Hfull, Hmeet. apply Z.eqb_refl. }
  assert (Hsize : size_fn state = circular_buffer.max_size (storage state))
    by (unfold size_fn, circular_buffer.size; by rewrite Hfull).
  assert (Hsize' : size_fn (add_fn state item) =
                   circular_buffer.max_size (storage state))
    by (unfold size_fn, circular_buffer.size; by rewrite Hfull', Hcap).
  split; [| by rewrite Hsize', Hsize].
  set (m := circular_buffer.max_size (storage state)) in *.
  set (t := circular_buffer.tail (storage state)) in *.
  apply list_eq. intros i.
  destruct (decide (Z.of_nat i < m)) as [Hi | Hi].
  2: { rewrite !(proj2 (lookup_ge_None _ _)); [done | |].
       - rewrite length_app, length_drop, length_contents.
         fold (size_fn state). simpl. lia.
       - rewrite length_contents. fold (size_fn (add_fn state item)). lia. }
  pose proof (contents_lookup (storage (add_fn state item)) (Z.of_nat i)
                ltac:(fold (size_fn (add_fn state item)); lia)) as Hnew.
  rewrite Nat2Z.id in Hnew. rewrite Hnew. clear Hnew.
  unfold circular_buffer.get_at_index, utils.get_pytree_batch_item.
  rewrite Hcap. simpl. rewrite Hfull. fold m t.
  rewrite Z.add_mod_idemp_l by lia.
  unfold utils.set_pytree_batch_item. rewrite Hmeet. fold t.
  rewrite list_lookup_total_alt.
  destruct (decide (Z.of_nat i = m - 1)) as [Hlast | Hmid].
  - (* the newest item, in the slot of the evicted one *)
    replace (t + 1 + Z.of_nat i) with (t + 1 * m) by lia.
    rewrite Z.mod_add, Z.mod_small by lia.
    rewrite list_lookup_insert_eq by (unfold m, circular_buffer.max_size in *; lia).
    rewrite lookup_app_r
      by (rewrite length_drop, length_contents; fold (size_fn state); lia).
    rewrite length_drop, length_contents. fold (size_fn state).
    by replace (i - (Z.to_nat (size_fn state) - 1))%nat with 0%nat by lia.
  - (* an older item, moved one place towards the front *)
    rewrite lookup_app_l
      by (rewrite length_drop, length_contents; fold (size_fn state); lia).
    rewrite lookup_drop.
    pose proof (contents_lookup (storage state) (Z.of_nat (1 + i))
                  ltac:(fold (size_fn state); lia)) as Hold.
    rewrite Nat2Z.id in Hold. rewrite Hold. clear Hold.
    unfold circular_buffer.get_at_index, utils.get_pytree_batch_item.
    fold m t. rewrite list_lookup_total_alt.
    replace (t + Z.of_nat (1 + i)) with (t + 1 + Z.of_nat i) by lia.
    pose proof (Z.mod_pos_bound (t + 1 + Z.of_nat i) m ltac:(lia)).
    rewrite list_lookup_insert_ne; [done |].
    intros Heq.
    assert (Hmod : t mod m = (t + 1 + Z.of_nat i) mod m).
    { rewrite (Z.mod_small t) by lia. lia. }
    apply mod_eq_close in Hmod; lia.
Qed.

(** ** Batch insertion: the read at line 48 *)


End transitions.

(** * The further properties at concrete buffers *)

Lemma wf_abcde4 : circular_buffer.wf (storage abcde4).
Proof. repeat split; by vm_compute. Qed.

Lemma wf_ab4 : circular_buffer.wf (storage ab4).
Proof. repeat split; by vm_compute. Qed.

Lemma wf_abcd4 : circular_buffer.wf (storage abcd4).
Proof. repeat split; by vm_compute. Qed.

Lemma update_fn_then_sample_fn_witness :
  size_fn (update_fn abcde4 mark) = size_fn abcde4 ∧
  sample_fn lcg_randint (update_fn abcde4 mark) 7 3 =
    fmap (M:=result) (fmap (M:=list) mark) (sample_fn lcg_randint abcde4 7 3).
Proof.
  apply (update_fn_then_sample_fn lcg_randint abcde4 mark 7 3). reflexivity.
Defined.

Lemma sample_fn_fails_iff_cursors_meet_witness :
  (sample_fn lcg_randint empty3 7 2 = Err EmptyBufferError ↔
   circular_buffer.full (storage empty3) = false ∧
   circular_buffer.head (storage empty3) = circular_buffer.tail (storage empty3)) ∧
  (¬ (circular_buffer.full (storage empty3) = false ∧
      circular_buffer.head (storage empty3) = circular_buffer.tail (storage empty3)) →
   sample_fn lcg_randint empty3 7 2 =
     Ok (circular_buffer.get_at_index (storage empty3) <$>
           lcg_randint 7 0 (size_fn empty3) 2)).
Proof.
  apply (sample_fn_fails_iff_cursors_meet lcg_randint empty3 7 2).
  repeat split; by vm_compute.
Defined.

(** The same four items, held with [head = 1] in one storage and with
    [head = 0] in the other. *)
Lemma sample_fn_sees_only_contents_witness :
  circular_buffer.data (storage abcde4) ≠ circular_buffer.data (storage bcde4) ∧
  sample_fn lcg_randint abcde4 7 3 = sample_fn lcg_randint bcde4 7 3.
Proof.
  split; [discriminate |].
  apply (sample_fn_sees_only_contents lcg_randint abcde4 bcde4 7 3
           lcg_randint_contract wf_abcde4).
  - repeat split; by vm_compute.
  - reflexivity.
Defined.

Lemma reachable_invariant_witness :
  let state :=
    update_fn (batch_inserted (add_fn (init_fn 3 "proto") "A") ["B"] 1) mark in
  circular_buffer.max_size (storage state) = 3 ∧
  circular_buffer.wf (storage state) ∧
  (circular_buffer.full (storage state) = true →
     circular_buffer.head (storage state) = circular_buffer.tail (storage state)) ∧
  0 ≤ size_fn state ≤ 3.
Proof.
  apply (reachable_invariant (item_tree := tuple_items) 3); [lia |].
  constructor.
  apply (reachable_add_batch_fn 3 (add_fn (init_fn 3 "proto") "A") ["B"]);
    [repeat constructor | reflexivity].
Defined.

(** One item inserted as a batch into a full buffer of four: one item is
    left. *)
Lemma add_batch_fn_size_witness :
  size_fn abcd4 = 4 ∧
  ∃ state',
    add_batch_fn (item_tree := tuple_items) abcd4 ["E"] = Returns state' ∧
    size_fn state' = 1.
Proof.
  split; [reflexivity |].
  destruct (add_batch_fn_size (item_tree := tuple_items) abcd4 ["E"] 1
              wf_abcd4 eq_refl eq_refl eq_refl)
    as (state' & Hstate' & Hsize & _).
  exists state'. split; [exact Hstate' | exact Hsize].
Defined.

Lemma add_batch_fn_appends_witness :
  ∃ state',
    add_batch_fn (item_tree := tuple_items) ab4 ["C"; "D"] = Returns state' ∧
    size_fn state' = size_fn ab4 + 2 ∧
    circular_buffer.contents (storage state') =
      circular_buffer.contents (storage ab4) ++ ["C"; "D"].
Proof.
  apply (add_batch_fn_appends (item_tree := tuple_items) ab4 ["C"; "D"] wf_ab4);
    [reflexivity | discriminate | by vm_compute | reflexivity | by vm_compute].
Defined.

Lemma add_batch_fn_is_sequence_of_add_fn_witness :
  add_batch_fn (item_tree := tuple_items) ab4 ["C"; "D"] =
    Returns (add_all ab4 ["C"; "D"]).
Proof.
  apply (add_batch_fn_is_sequence_of_add_fn (item_tree := tuple_items)
           ab4 ["C"; "D"] wf_ab4);
    [reflexivity | discriminate | by vm_compute | reflexivity | by vm_compute].
Defined.

Lemma add_batch_fn_empty_batch_noop_witness :
  add_batch_fn (item_tree := tuple_items) ab4 [] = Returns ab4.
Proof.
  destruct (add_batch_fn_empty_batch_noop (item_tree := tuple_items) ab4 wf_ab4)
    as [Hreturns _]; [reflexivity | by vm_compute |].
  exact (Hreturns 0 eq_refl eq_refl).
Defined.

Lemma add_batch_fn_whole_storage_witness :
  ∃ state',
    add_batch_fn (item_tree := tuple_items) abcd4 ["W"; "X"; "Y"; "Z"] =
      Returns state' ∧
    circular_buffer.data (storage state') = ["W"; "X"; "Y"; "Z"] ∧
    circular_buffer.head (storage state') = 0 ∧
    circular_buffer.tail (storage state') = 0 ∧
    circular_buffer.full (storage state') = true ∧
    size_fn state' = circular_buffer.max_size (storage abcd4) ∧
    circular_buffer.contents (storage state') = ["W"; "X"; "Y"; "Z"].
Proof.
  apply (add_batch_fn_whole_storage (item_tree := tuple_items)
           abcd4 ["W"; "X"; "Y"; "Z"]);
    [split; reflexivity | reflexivity | reflexivity | left; reflexivity
    | reflexivity].
Defined.

(** In [abcde4] the storage is full with [tail = 1], not [max_size - 1]:
    the two insertions of one item give different states. *)
Lemma add_batch_fn_single_vs_add_fn_full_witness :
  ∃ state',
    add_batch_fn (item_tree := tuple_items) abcde4 ["F"] = Returns state' ∧
    state' ≠ add_fn abcde4 "F".
Proof.
  destruct (add_batch_fn_single_vs_add_fn_full (item_tree := tuple_items)
              abcde4 "F" wf_abcde4 eq_refl eq_refl eq_refl)
    as (state' & Hstate' & _ & Htail & _).
  exists state'. split; [exact Hstate' |].
  intros Heq. specialize (Htail Heq). vm_compute in Htail. discriminate Htail.
Defined.


(** The buffer of four is full: [add_fn] drops ["B"] and appends ["F"]. *)
Lemma add_fn_step_witness :
  circular_buffer.contents (storage (add_fn abcde4 "F")) = ["C"; "D"; "E"; "F"] ∧
  size_fn (add_fn abcde4 "F") = 4.
Proof.
  exact (add_fn_step abcde4 "F" wf_abcde4 (fun _ => eq_refl)).
Defined.
